(** * dm-date-variance-injector: a shallow embedding of [main.py]

    The program parses a date (YYYY-MM-DD), checks a requested variance
    range against a ceiling, draws a random day offset, shifts the date and
    prints it.  Python integers are unbounded, hence [Z]; [str] values are
    [string]s, which covers the texts whose characters lie below U+0100
    (among them the decimal digits are the ten ASCII ones); an exception is
    a value of [exn] carried by [result]; the process-wide random generator
    is an explicit state threaded through the injection.

    The repository consists of [main.py] alone.  What it calls in Python's
    standard library ([datetime], [_strptime], [random], [logging]) is
    modelled in the modules [Calendar], [Random], [Strptime] and [Strftime]
    below, following CPython 3.11: the algorithms of [_pydatetime],
    [_strptime] and [random], the error messages of the C [datetime], and
    [strftime] as the GNU C library performs it. *)

From Stdlib Require Import ZArith List String Ascii Bool Lia DecimalString.
Import ListNotations.

Local Open Scope string_scope.
Local Open Scope Z_scope.

(** ** Exceptions and results *)

(** The two exception classes the program can meet.  [ValueError] is what
    [validate_date] and the range check raise; [OverflowError] is what the
    date arithmetic raises.  Each carries its message ([str(e)]). *)
Inductive exn : Type :=
| ValueError (msg : string)
| OverflowError (msg : string).

Inductive result (A : Type) : Type :=
| Ok (a : A)
| Raise (e : exn).
Arguments Ok {A} a.
Arguments Raise {A} e.

Definition exn_msg (e : exn) : string :=
  match e with ValueError m | OverflowError m => m end.

Definition is_value_error (e : exn) : bool :=
  match e with ValueError _ => true | OverflowError _ => false end.

(** [str(n)] for a Python integer. *)
Definition str_int (n : Z) : string := NilZero.string_of_int (Z.to_int n).

(** ** The proleptic Gregorian calendar of [datetime] *)

Module Calendar.

Record date : Type := mkdate { year : Z; month : Z; day : Z }.

Definition MINYEAR : Z := 1.
Definition MAXYEAR : Z := 9999.

(** [_DAYS_IN_MONTH] and [_DAYS_BEFORE_MONTH], indexed from 1 (entry 0 is
    the placeholder -1). *)
Definition DAYS_IN_MONTH : list Z :=
  [-1; 31; 28; 31; 30; 31; 30; 31; 31; 30; 31; 30; 31].
Definition DAYS_BEFORE_MONTH : list Z :=
  [-1; 0; 31; 59; 90; 120; 151; 181; 212; 243; 273; 304; 334].

Definition index (l : list Z) (i : Z) : Z := nth (Z.to_nat i) l 0.

Definition b2z (b : bool) : Z := if b then 1 else 0.

(** [_is_leap]: [year % 4 == 0 and (year % 100 != 0 or year % 400 == 0)]. *)
Definition is_leap (y : Z) : bool :=
  (y mod 4 =? 0) && (negb (y mod 100 =? 0) || (y mod 400 =? 0)).

(** [_days_before_year]: days before January 1st of [y]. *)
Definition days_before_year (y : Z) : Z :=
  let y' := y - 1 in y' * 365 + y' / 4 - y' / 100 + y' / 400.

(** [_days_in_month]. *)
Definition days_in_month (y m : Z) : Z :=
  if (m =? 2) && is_leap y then 29 else index DAYS_IN_MONTH m.

(** [_days_before_month]. *)
Definition days_before_month (y m : Z) : Z :=
  index DAYS_BEFORE_MONTH m + b2z ((m >? 2) && is_leap y).

(** [_ymd2ord]: ordinal of a date, 0001-01-01 being day 1. *)
Definition ymd2ord (y m d : Z) : Z :=
  days_before_year y + days_before_month y m + d.

Definition DI400Y : Z := Eval cbv in days_before_year 401.
Definition DI100Y : Z := Eval cbv in days_before_year 101.
Definition DI4Y : Z := Eval cbv in days_before_year 5.

(** [_ord2ymd]: the date of an ordinal. *)
Definition ord2ymd (n : Z) : Z * Z * Z :=
  let n := n - 1 in
  let n400 := n / DI400Y in let n := n mod DI400Y in
  let y := n400 * 400 + 1 in
  let n100 := n / DI100Y in let n := n mod DI100Y in
  let n4 := n / DI4Y in let n := n mod DI4Y in
  let n1 := n / 365 in let n := n mod 365 in
  let y := y + (n100 * 100 + n4 * 4 + n1) in
  if (n1 =? 4) || (n100 =? 4) then (y - 1, 12, 31)
  else
    let leapyear := (n1 =? 3) && (negb (n4 =? 24) || (n100 =? 3)) in
    let m := Z.shiftr (n + 50) 5 in
    let preceding := index DAYS_BEFORE_MONTH m + b2z ((m >? 2) && leapyear) in
    let '(m, preceding) :=
      if preceding >? n
      then (m - 1,
            preceding - (index DAYS_IN_MONTH (m - 1)
                         + b2z ((m - 1 =? 2) && leapyear)))
      else (m, preceding) in
    (y, m, n - preceding + 1).

(** [_check_date_fields]: the test the [date] constructor applies. *)
Definition check_date_fields (y m d : Z) : bool :=
  (MINYEAR <=? y) && (y <=? MAXYEAR)
  && (1 <=? m) && (m <=? 12)
  && (1 <=? d) && (d <=? days_in_month y m).

(** [date(y, m, d)]. *)
Definition date_new (y m d : Z) : result date :=
  if negb ((MINYEAR <=? y) && (y <=? MAXYEAR))
  then Raise (ValueError ("year " ++ str_int y ++ " is out of range"))
  else if negb ((1 <=? m) && (m <=? 12))
  then Raise (ValueError "month must be in 1..12")
  else if negb ((1 <=? d) && (d <=? days_in_month y m))
  then Raise (ValueError "day is out of range for month")
  else Ok (mkdate y m d).

(** Every [date] object the interpreter holds went through the
    constructor; [valid_date] is that invariant. *)
Definition valid_date (d : date) : Prop :=
  check_date_fields (year d) (month d) (day d) = true.

Definition toordinal (d : date) : Z := ymd2ord (year d) (month d) (day d).

Definition MAXORDINAL : Z := Eval cbv in ymd2ord 9999 12 31.

(** [date.fromordinal(n)]. *)
Definition fromordinal (n : Z) : result date :=
  let '(y, m, d) := ord2ymd n in date_new y m d.

(** [timedelta(days=n)]: only the day count matters here; the constructor
    refuses magnitudes above 999999999, and a count that does not fit a C
    [int] before that. *)
Definition timedelta_days (n : Z) : result Z :=
  if Z.abs n >? 999999999
  then Raise (OverflowError
                (if (-2147483648 <=? n) && (n <=? 2147483647)
                 then "days=" ++ str_int n
                      ++ "; must have magnitude <= 999999999"
                 else "Python int too large to convert to C int"))
  else Ok n.

(** [date.__add__]: [o = self.toordinal() + other.days], accepted when
    [0 < o <= _MAXORDINAL]. *)
Definition date_add (d : date) (days : Z) : result date :=
  let o := toordinal d + days in
  if (0 <? o) && (o <=? MAXORDINAL) then fromordinal o
  else Raise (OverflowError "date value out of range").

(** The day after [d] by the calendar's own rules: next day of the month,
    else first of the next month, else first of January of the next year.
    This is the reference against which the ordinal arithmetic is
    compared. *)
Definition tomorrow (d : date) : date :=
  if day d <? days_in_month (year d) (month d)
  then mkdate (year d) (month d) (day d + 1)
  else if month d <? 12 then mkdate (year d) (month d + 1) 1
  else mkdate (year d + 1) 1 1.

End Calendar.

(** ** The random generator behind [random.randint] *)

Module Random.

(** The state of the process-wide generator.  What the Mersenne Twister
    will deliver to the coming requests is abstracted as a tape of raw
    integers, read one entry per request; [cursor] counts the requests
    served so far. *)
Record rng : Type := mkrng { tape : nat -> Z; cursor : nat }.

(** [_randbelow(n)], for [n > 0]: an integer of [0 .. n-1], and the
    generator moves on. *)
Definition randbelow (n : Z) (g : rng) : Z * rng :=
  (tape g (cursor g) mod n, mkrng (tape g) (S (cursor g))).

(** [randrange(start, stop)]: [start + _randbelow(width)] when the range is
    not empty, a [ValueError] otherwise. *)
Definition randrange (start stop : Z) (g : rng) : result Z * rng :=
  let width := stop - start in
  if width >? 0
  then let '(k, g') := randbelow width g in (Ok (start + k), g')
  else (Raise (ValueError ("empty range for randrange() (" ++ str_int start
                             ++ ", " ++ str_int stop ++ ", "
                             ++ str_int width ++ ")")), g).

(** [randint(a, b)] is [randrange(a, b+1)]. *)
Definition randint (a b : Z) (g : rng) : result Z * rng :=
  randrange a (b + 1) g.

(** A generator whose next raw value is [k]. *)
Definition rng_next (k : Z) : rng := mkrng (fun _ => k) 0.

End Random.

(** ** Computations that use the generator and may raise *)

Definition M (A : Type) : Type := Random.rng -> result A * Random.rng.

Definition ret {A} (a : A) : M A := fun g => (Ok a, g).
Definition raise {A} (e : exn) : M A := fun g => (Raise e, g).
Definition lift {A} (r : result A) : M A := fun g => (r, g).
Definition bind {A B} (c : M A) (k : A -> M B) : M B :=
  fun g => match c g with
           | (Ok a, g') => k a g'
           | (Raise e, g') => (Raise e, g')
           end.

Notation "x <- c ;; k" := (bind c (fun x => k))
  (at level 61, c at next level, right associativity).

(** ** [datetime.strptime(s, "%Y-%m-%d")] *)

Module Strptime.

(** A regular expression as the backtracking matcher sees it: from an
    input, the list of (text matched, rest of the input), the alternatives
    in the order the matcher tries them. *)
Definition rx : Type := string -> list (string * string).

Definition rx_class (p : ascii -> bool) : rx :=
  fun s => match s with
           | String c s' => if p c then [(String c "", s')] else []
           | EmptyString => []
           end.

Definition rx_seq (a b : rx) : rx :=
  fun s => flat_map (fun '(t1, s1) =>
                       map (fun '(t2, s2) => (t1 ++ t2, s2)) (b s1)) (a s).

Definition rx_alt (a b : rx) : rx := fun s => (a s ++ b s)%list.

Definition between (lo hi : ascii) (c : ascii) : bool :=
  (N_of_ascii lo <=? N_of_ascii c)%N && (N_of_ascii c <=? N_of_ascii hi)%N.

(** [\d] (on the characters a [string] holds, the ten ASCII digits). *)
Definition digit : rx := rx_class (between "0" "9").
Definition range (lo hi : ascii) : rx := rx_class (between lo hi).
Definition chr (c : ascii) : rx := rx_class (Ascii.eqb c).

Infix ";;;" := rx_seq (at level 40, left associativity).
Infix "|||" := rx_alt (at level 50, left associativity).

(** The regular expressions [_strptime] substitutes for the directives:
    [%Y] is [\d\d\d\d], [%m] is [1[0-2]|0[1-9]|[1-9]] and [%d] is
    [3[0-1]|[1-2]\d|0[1-9]|[1-9]| [1-9]]. *)
Definition re_Y : rx := digit ;;; digit ;;; digit ;;; digit.
Definition re_m : rx :=
  chr "1" ;;; range "0" "2" ||| chr "0" ;;; range "1" "9" ||| range "1" "9".
Definition re_d : rx :=
  chr "3" ;;; range "0" "1" ||| range "1" "2" ;;; digit
  ||| chr "0" ;;; range "1" "9" ||| range "1" "9" ||| chr " " ;;; range "1" "9".

(** The groups of a match and what is left of the input after it. *)
Record found : Type :=
  mkfound { group_Y : string; group_m : string; group_d : string;
            unconverted : string }.

(** The part of the pattern after the year: [-(?P<m>..)-(?P<d>..)]. *)
Definition re_tail (s : string) : list (string * string * string) :=
  flat_map (fun '(_, s1) =>
    flat_map (fun '(m, s2) =>
      flat_map (fun '(_, s3) =>
        map (fun '(d, s4) => (m, d, s4)) (re_d s3))
        (chr "-" s2))
      (re_m s1))
    (chr "-" s).

(** The pattern of ["%Y-%m-%d"], all the ways it matches a prefix of [s]. *)
Definition format_regex (s : string) : list found :=
  flat_map (fun '(y, s1) =>
    map (fun '(m, d, s4) => mkfound y m d s4) (re_tail s1)) (re_Y s).

(** [format_regex.match(data_string)]: the first way, if any. *)
Definition re_match (s : string) : option found := hd_error (format_regex s).

(** [int(text)] on the text of a group: blanks are stripped, then the
    decimal digits are read. *)
Definition digit_val (c : ascii) : Z := Z.of_N (N_of_ascii c) - 48.

Fixpoint int_digits (acc : Z) (s : string) : Z :=
  match s with
  | EmptyString => acc
  | String c s' => int_digits (10 * acc + digit_val c) s'
  end.

Fixpoint lstrip (s : string) : string :=
  match s with
  | String c s' => if Ascii.eqb c " " then lstrip s' else s
  | EmptyString => s
  end.

Definition int (s : string) : Z := int_digits 0 (lstrip s).

(** [datetime.datetime.strptime(data_string, "%Y-%m-%d").date()]: no match,
    or input left over after the match, or fields that are no date, each
    raise [ValueError]. *)
Definition strptime_date (data_string : string) : result Calendar.date :=
  match re_match data_string with
  | None =>
      Raise (ValueError ("time data '" ++ data_string
                           ++ "' does not match format '%Y-%m-%d'"))
  | Some f =>
      match unconverted f with
      | EmptyString =>
          Calendar.date_new (int (group_Y f)) (int (group_m f)) (int (group_d f))
      | rest => Raise (ValueError ("unconverted data remains: " ++ rest))
      end
  end.

End Strptime.

(** ** [date.strftime] *)

Module Strftime.

Fixpoint zeros (n : nat) : string :=
  match n with O => "" | S n' => String "0" (zeros n') end.

(** [text.zfill(width)] for the text of a non-negative number. *)
Definition zfill (width : nat) (text : string) : string :=
  zeros (width - String.length text) ++ text.

(** The directives the program's default pattern uses: [%Y] is the year
    in decimal, as many digits as it has (a year below 1000 comes out with
    fewer than four), [%m] and [%d] are the month and the day, zero-padded
    to two, [%%] is a percent sign. *)
Definition directive (c : ascii) (d : Calendar.date) : option string :=
  if Ascii.eqb c "Y" then Some (str_int (Calendar.year d))
  else if Ascii.eqb c "m" then Some (zfill 2 (str_int (Calendar.month d)))
  else if Ascii.eqb c "d" then Some (zfill 2 (str_int (Calendar.day d)))
  else if Ascii.eqb c "%" then Some "%"
  else None.

Section Directives.

(** What the platform makes of any other directive, with the flags and
    widths it may carry ([%-d], [%5Y]), is left as a parameter: it is
    handed the format from that directive on, and the date, and gives the
    rest of the output. *)
Variable platform_strftime : string -> Calendar.date -> string.

Fixpoint strftime (d : Calendar.date) (fmt : string) : string :=
  match fmt with
  | EmptyString => ""
  | String c rest =>
      if Ascii.eqb c "%"
      then match rest with
           | String c' rest' =>
               match directive c' d with
               | Some text => text ++ strftime d rest'
               | None => platform_strftime fmt d
               end
           | EmptyString => "%"
           end
      else String c (strftime d rest)
  end.

End Directives.

End Strftime.

(** ** The program: [main.py] *)

Module Main.

Import Calendar.

(** The messages of the two errors the program itself raises. *)
Definition InvalidFormat : exn :=
  ValueError "Invalid date format. Please use YYYY-MM-DD (e.g., 2023-10-26).".

Definition RangeExceeded (range_days max_range : Z) : exn :=
  ValueError ("The specified range (" ++ str_int range_days
                ++ ") exceeds the maximum allowed range ("
                ++ str_int max_range ++ ").").

(** [validate_date]: parse with ["%Y-%m-%d"]; any [ValueError] of the
    parser is replaced by the program's own. *)
Definition validate_date (date_str : string) : result date :=
  match Strptime.strptime_date date_str with
  | Ok date_obj => Ok date_obj
  | Raise (ValueError _) => Raise InvalidFormat
  | Raise e => Raise e
  end.

(** [inject_date_variance]: the range check, the draw, the shift. *)
Definition inject_date_variance (date_obj : date) (range_days max_range : Z)
  : M date :=
  if Z.abs range_days >? max_range
  then raise (RangeExceeded range_days max_range)
  else
    variance <- Random.randint (- Z.abs range_days) (Z.abs range_days) ;;
    delta <- lift (timedelta_days variance) ;;
    new_date <- lift (date_add date_obj delta) ;;
    ret new_date.

(** The parsed command line. *)
Record args : Type :=
  mkargs { arg_date : string; arg_range : Z; arg_max_range : Z;
           arg_format : string }.

Definition default_range : Z := 30.
Definition default_max_range : Z := 365.
Definition default_format : string := "%Y-%m-%d".

(** What a run leaves behind: the lines printed, the lines logged, the
    exit status. *)
Record outcome : Type :=
  mkoutcome { stdout : list string; stderr : list string; exit_code : Z }.

(** [logging.error(msg)] under the format
    ['%(asctime)s - %(levelname)s - %(message)s']: the line written to
    standard error, [asctime] being the time of the call. *)
Definition logging_error (asctime msg : string) : string :=
  asctime ++ " - " ++ "ERROR" ++ " - " ++ msg.

Section Program.

Variable platform_strftime : string -> date -> string.

(** The [try] block of [main] (lines 105 to 115), entered with the
    arguments [parse_args] returned. *)
Definition main_body (a : args) : M string :=
  date_obj <- lift (validate_date (arg_date a)) ;;
  modified_date <-
    inject_date_variance date_obj (arg_range a) (arg_max_range a) ;;
  ret (Strftime.strftime platform_strftime modified_date (arg_format a)).

(** [main] from line 105 on: print the result, or log the error and exit
    with status 1.  [asctime] is the clock's reading should an error be
    logged.  A command line [parse_args] itself refuses or answers (a usage
    error, [--help]) ends the process at line 103, before any of this. *)
Definition main (asctime : string) (a : args) (g : Random.rng) : outcome :=
  match fst (main_body a g) with
  | Ok formatted_date => mkoutcome [formatted_date] [] 0
  | Raise (ValueError e) =>
      mkoutcome [] [logging_error asctime ("Error: " ++ e)] 1
  | Raise e =>
      mkoutcome []
        [logging_error asctime ("An unexpected error occurred: " ++ exn_msg e)] 1
  end.

End Program.

(** The call of line 92 on its own: what [random.randint] returns for a
    requested range in a given generator state. *)
Definition draw (range_days : Z) (g : Random.rng) : result Z :=
  fst (Random.randint (- Z.abs range_days) (Z.abs range_days) g).

End Main.

(** ** Definitions the statements and proofs below rely on *)

Module Tables.

(** The integers [lo], [lo+1], ..., [len] of them. *)
Fixpoint zrange (lo : Z) (len : nat) : list Z :=
  match len with O => [] | S k => lo :: zrange (lo + 1) k end.

Import Calendar.

(** [_days_in_month] and [_days_before_month] depend on the year through
    its leap flag only. *)
Definition dim_of (leap : bool) (m : Z) : Z :=
  if (m =? 2) && leap then 29 else index DAYS_IN_MONTH m.
Definition dbm_of (leap : bool) (m : Z) : Z :=
  index DAYS_BEFORE_MONTH m + b2z ((m >? 2) && leap).

(** The last lines of [_ord2ymd]: month and day of day [n] (from 0) of a
    year. *)
Definition month_day (leapyear : bool) (n : Z) : Z * Z :=
  let m := Z.shiftr (n + 50) 5 in
  let preceding := index DAYS_BEFORE_MONTH m + b2z ((m >? 2) && leapyear) in
  let '(m, preceding) :=
    if preceding >? n
    then (m - 1,
          preceding - (index DAYS_IN_MONTH (m - 1)
                       + b2z ((m - 1 =? 2) && leapyear)))
    else (m, preceding) in
  (m, n - preceding + 1).

(** [month_day] gives a month and a day of that month, with [n] days of
    the year before it. *)
Definition month_day_ok (leap : bool) (n : Z) : bool :=
  let '(m, d) := month_day leap n in
  (1 <=? m) && (m <=? 12) && (1 <=? d) && (d <=? dim_of leap m)
  && (dbm_of leap m + d =? n + 1).

(** [month_day] finds a day of a month again from its place in the year. *)
Definition month_day_inv_ok (leap : bool) (m d : Z) : bool :=
  if d <=? dim_of leap m then
    let n := dbm_of leap m + d - 1 in
    (0 <=? n) && (n <? 365 + b2z leap)
    && (let '(m', d') := month_day leap n in (m' =? m) && (d' =? d))
  else true.

(** A month starts where the month before it ends. *)
Definition month_succ_ok (leap : bool) (m : Z) : bool :=
  (12 <=? m)
  || ((dbm_of leap (m + 1) =? dbm_of leap m + dim_of leap m)
      && (1 <=? dim_of leap (m + 1))).

Import Strptime.

Definition is_digit (c : ascii) : bool := between "0" "9" c.

Definition DIGITS : list ascii :=
  ["0"; "1"; "2"; "3"; "4"; "5"; "6"; "7"; "8"; "9"]%char.

Definition two (a b : ascii) : string := String a (String b "").

Definition fields_eqb (x : string * string * string) (m d r : string) : bool :=
  let '(m', d', r') := x in
  String.eqb m' m && String.eqb d' d && String.eqb r' r.

(** On ["-" m1 m2 "-" d1 d2] the tail of the pattern captures the two
    fields whole when they spell a month of 01..12 and a day of 01..31; in
    every other case it matches nothing or leaves input over. *)
Definition tail_ok (m1 m2 d1 d2 : ascii) : bool :=
  let t := String "-" (two m1 m2 ++ String "-" (two d1 d2)) in
  let M := int (two m1 m2) in
  let D := int (two d1 d2) in
  if (1 <=? M) && (M <=? 12) && (1 <=? D) && (D <=? 31)
  then match re_tail t with
       | x :: _ => fields_eqb x (two m1 m2) (two d1 d2) ""
       | [] => false
       end
  else match re_tail t with
       | (_, _, r) :: _ => negb (String.eqb r "")
       | [] => true
       end.

(** What [strftime] writes for a year of 1000..9999 and for a month or
    day of 0..99: four digits, and two, that read back as the number. *)
Definition year_text_ok (y : Z) : bool :=
  match str_int y with
  | String a (String b (String c (String e EmptyString))) =>
      is_digit a && is_digit b && is_digit c && is_digit e
      && (int (String a (String b (String c (String e "")))) =? y)
  | _ => false
  end.

Definition two_text_ok (v : Z) : bool :=
  match Strftime.zfill 2 (str_int v) with
  | String a (String b EmptyString) =>
      is_digit a && is_digit b && (int (two a b) =? v)
  | _ => false
  end.

End Tables.

Module Spec.

Import Calendar Main Strptime Tables.

(** The pattern the specification asks of a date string, YYYY-MM-DD: four
    digits, a hyphen, two digits, a hyphen, two digits. *)
Definition matches_YYYY_MM_DD (s : string) : bool :=
  match list_ascii_of_string s with
  | [y1; y2; y3; y4; h1; m1; m2; h2; d1; d2] =>
      is_digit y1 && is_digit y2 && is_digit y3 && is_digit y4
      && Ascii.eqb h1 "-" && is_digit m1 && is_digit m2
      && Ascii.eqb h2 "-" && is_digit d1 && is_digit d2
  | _ => false
  end.

(** The year, month and day such a string spells. *)
Definition fields_YYYY_MM_DD (s : string) : Z * Z * Z :=
  (int (substring 0 4 s), int (substring 5 2 s), int (substring 8 2 s)).

(** [k] days after [d], one calendar day at a time. *)
Definition days_later (k : nat) (d : date) : date := Nat.iter k tomorrow d.

(** [d'] is [d] shifted by [v] days: [v] days later when [v] is not
    negative, else the date from which [d] is [-v] days later. *)
Definition shifted (d : date) (v : Z) (d' : date) : Prop :=
  if 0 <=? v then d' = days_later (Z.to_nat v) d
  else d = days_later (Z.to_nat (- v)) d'.

(** Whether the range check of [inject_date_variance] let the call pass:
    the call did not raise a [ValueError]. *)
Definition range_accepted (d : date) (r m : Z) (g : Random.rng) : bool :=
  match fst (inject_date_variance d r m g) with
  | Raise (ValueError _) => false
  | _ => true
  end.

End Spec.

Module Shape.

Import Calendar Main Strptime Tables.

(** The spellings of a month [%m] matches and of a day [%d] matches, in
    the order of the alternatives of their patterns. *)
Definition MONTH_TEXTS : list string :=
  ["10"; "11"; "12";
   "01"; "02"; "03"; "04"; "05"; "06"; "07"; "08"; "09";
   "1"; "2"; "3"; "4"; "5"; "6"; "7"; "8"; "9"].

Definition DAY_TEXTS : list string :=
  ["30"; "31";
   "10"; "11"; "12"; "13"; "14"; "15"; "16"; "17"; "18"; "19";
   "20"; "21"; "22"; "23"; "24"; "25"; "26"; "27"; "28"; "29";
   "01"; "02"; "03"; "04"; "05"; "06"; "07"; "08"; "09";
   "1"; "2"; "3"; "4"; "5"; "6"; "7"; "8"; "9";
   " 1"; " 2"; " 3"; " 4"; " 5"; " 6"; " 7"; " 8"; " 9"].

(** Four decimal digits. *)
Definition four_digits (y : string) : bool :=
  match y with
  | String a (String b (String c (String e EmptyString))) =>
      is_digit a && is_digit b && is_digit c && is_digit e
  | _ => false
  end.

(** All the characters, and the texts a pattern built from classes,
    sequences and alternatives can match. *)
Definition ALL_ASCII : list ascii := map ascii_of_nat (seq 0 256).

Definition class_texts (p : ascii -> bool) : list string :=
  map (fun c => String c "") (filter p ALL_ASCII).

Definition seq_texts (l1 l2 : list string) : list string :=
  flat_map (fun t1 => map (append t1) l2) l1.

(** Whatever [r] matches is a prefix of the input, the rest is what it
    leaves, and the text matched is one of [l]. *)
Definition texts_of (r : rx) (l : list string) : Prop :=
  forall s t rest, In (t, rest) (r s) -> s = t ++ rest /\ In t l.

Definition subset_texts (l1 l2 : list string) : bool :=
  forallb (fun t => existsb (String.eqb t) l2) l1.

Definition re_m_texts : list string :=
  ((seq_texts (class_texts (Ascii.eqb "1")) (class_texts (between "0" "2"))
    ++ seq_texts (class_texts (Ascii.eqb "0")) (class_texts (between "1" "9")))
   ++ class_texts (between "1" "9"))%list.

Definition re_d_texts : list string :=
  ((((seq_texts (class_texts (Ascii.eqb "3")) (class_texts (between "0" "1"))
      ++ seq_texts (class_texts (between "1" "2"))
           (class_texts (between "0" "9")))
     ++ seq_texts (class_texts (Ascii.eqb "0")) (class_texts (between "1" "9")))
    ++ class_texts (between "1" "9"))
   ++ seq_texts (class_texts (Ascii.eqb " ")) (class_texts (between "1" "9")))%list.

(** After the year, a month and a day in any of their spellings are
    captured whole, with nothing left over. *)
Definition tail_texts_ok (m d : string) : bool :=
  match re_tail ("-" ++ m ++ "-" ++ d) with
  | x :: _ => fields_eqb x m d ""
  | [] => false
  end.

(** Digits print back as they were read, those of a year when they spell
    1000 or more. *)
Definition year_print_ok (a b c e : ascii) : bool :=
  let y := String a (String b (String c (String e ""))) in
  (int y <? 1000) || String.eqb (str_int (int y)) y.

(** The text of a year below 1000 is shorter than four characters. *)
Definition short_year_ok (y : Z) : bool :=
  (String.length (str_int y) <=? 3)%nat.

(** Characters of the ASCII range only. *)
Definition ascii_only (s : string) : bool :=
  forallb (fun c => (N_of_ascii c <? 128)%N) (list_ascii_of_string s).

Definition two_print_ok (a b : ascii) : bool :=
  String.eqb (Strftime.zfill 2 (str_int (int (two a b)))) (two a b).

(** The two ways the [try] statement of [main] ends.  Either the date
    parses, the range is accepted and the day drawn is in the calendar: one
    line is printed, that day in the format asked for, nothing is logged
    and the status is 0.  Or one of the three fails: nothing is printed,
    one line is logged and the status is 1. *)
Definition two_endings (pd : string -> date -> string) (asctime : string)
    (a : args) (g : Random.rng) : Prop :=
  (exists d v d',
     validate_date (arg_date a) = Ok d
     /\ Z.abs (arg_range a) <= arg_max_range a
     /\ draw (arg_range a) g = Ok v
     /\ 1 <= toordinal d + v <= MAXORDINAL
     /\ valid_date d' /\ toordinal d' = toordinal d + v
     /\ main pd asctime a g
        = mkoutcome [Strftime.strftime pd d' (arg_format a)] [] 0)
  \/ (exists msg,
        main pd asctime a g = mkoutcome [] [logging_error asctime msg] 1
        /\ ~ (exists d v,
                validate_date (arg_date a) = Ok d
                /\ Z.abs (arg_range a) <= arg_max_range a
                /\ draw (arg_range a) g = Ok v
                /\ 1 <= toordinal d + v <= MAXORDINAL)).

(** The command line [main.py DATE]: the options take the defaults
    [setup_argparse] declares. *)
Definition default_args (date_str : string) : args :=
  mkargs date_str default_range default_max_range default_format.

End Shape.

(** * Properties *)

Import Calendar Main.

(** ** The calendar *)

Module CalendarFacts.

Import Tables.

Lemma zrange_In len : forall lo x,
  lo <= x < lo + Z.of_nat len -> In x (zrange lo len).
Proof.
  induction len as [|k IH]; intros lo x H; [lia|].
  cbn [zrange]. destruct (Z.eq_dec lo x) as [->|N]; [left; reflexivity|].
  right. apply IH. lia.
Qed.

(** A check that passes for both kinds of year and the twelve months
    holds of every month. *)
Lemma leap_month_table (P : bool -> Z -> bool) :
  forallb (fun l => forallb (P l) (zrange 1 12)) [true; false] = true ->
  forall leap m, 1 <= m <= 12 -> P leap m = true.
Proof.
  intros A leap m Hm. rewrite forallb_forall in A.
  assert (Hl : In leap [true; false]) by (destruct leap; cbn; auto).
  specialize (A _ Hl). rewrite forallb_forall in A.
  apply A, zrange_In. lia.
Qed.

Lemma dim_of_le_31 leap m : 1 <= m <= 12 -> dim_of leap m <= 31.
Proof.
  intros H. apply Z.leb_le.
  apply (leap_month_table (fun l k => dim_of l k <=? 31)); [|exact H].
  vm_compute; reflexivity.
Qed.

Lemma month_day_table leap n :
  0 <= n < 365 + b2z leap -> month_day_ok leap n = true.
Proof.
  intros H.
  assert (A : forallb (month_day_ok true) (zrange 0 366) = true)
    by (vm_compute; reflexivity).
  assert (B : forallb (month_day_ok false) (zrange 0 365) = true)
    by (vm_compute; reflexivity).
  rewrite forallb_forall in A, B.
  destruct leap; [apply A | apply B]; apply zrange_In; cbn in H; lia.
Qed.

Lemma month_day_inv_table leap m d :
  1 <= m <= 12 -> 1 <= d -> month_day_inv_ok leap m d = true.
Proof.
  intros Hm Hd. destruct (Z.leb_spec d 31) as [H31|H31].
  - pose proof (leap_month_table
                  (fun l k => forallb (month_day_inv_ok l k) (zrange 1 31))
                  ltac:(vm_compute; reflexivity) leap m Hm) as A.
    cbv beta in A. rewrite forallb_forall in A. apply A, zrange_In. lia.
  - unfold month_day_inv_ok. pose proof (dim_of_le_31 leap m Hm).
    destruct (Z.leb_spec d (dim_of leap m)); [lia | reflexivity].
Qed.

Lemma month_succ_table leap m :
  1 <= m < 12 ->
  dbm_of leap (m + 1) = dbm_of leap m + dim_of leap m
  /\ 1 <= dim_of leap (m + 1).
Proof.
  intros H.
  pose proof (leap_month_table month_succ_ok ltac:(vm_compute; reflexivity)
                leap m ltac:(lia)) as A.
  unfold month_succ_ok in A.
  destruct (Z.leb_spec 12 m); [lia|]. cbn [orb] in A.
  rewrite andb_true_iff, Z.eqb_eq, Z.leb_le in A. exact A.
Qed.

(** Evaluate the month tables where month and leap flag are known. *)
Ltac eval_tables :=
  repeat match goal with
    | |- context [dbm_of ?l ?m] =>
        let v := eval vm_compute in (dbm_of l m) in change (dbm_of l m) with v
    | |- context [dim_of ?l ?m] =>
        let v := eval vm_compute in (dim_of l m) in change (dim_of l m) with v
    | |- context [b2z ?l] =>
        let v := eval vm_compute in (b2z l) in change (b2z l) with v
    end.

Lemma is_leap_spec y :
  is_leap y = true <-> (y mod 4 = 0 /\ (y mod 100 <> 0 \/ y mod 400 = 0)).
Proof.
  unfold is_leap.
  rewrite andb_true_iff, orb_true_iff, negb_true_iff, !Z.eqb_eq, Z.eqb_neq.
  tauto.
Qed.

Lemma is_leap_false y :
  is_leap y = false <-> ~ (y mod 4 = 0 /\ (y mod 100 <> 0 \/ y mod 400 = 0)).
Proof.
  rewrite <- is_leap_spec. destruct (is_leap y); split; congruence.
Qed.

(** A year has 365 days, a leap year one more. *)
Lemma days_before_year_succ y :
  days_before_year (y + 1) = days_before_year y + 365 + b2z (is_leap y).
Proof.
  unfold days_before_year, b2z. cbv zeta.
  replace (y + 1 - 1) with y by lia.
  destruct (is_leap y) eqn:E;
    [apply is_leap_spec in E | apply is_leap_false in E];
    Z.div_mod_to_equations; lia.
Qed.

Lemma days_before_year_mono y y' :
  y <= y' -> days_before_year y <= days_before_year y'.
Proof.
  intros H. unfold days_before_year. cbv zeta.
  Z.div_mod_to_equations; lia.
Qed.

Lemma days_in_month_of y m : days_in_month y m = dim_of (is_leap y) m.
Proof. reflexivity. Qed.

Lemma days_before_month_of y m : days_before_month y m = dbm_of (is_leap y) m.
Proof. reflexivity. Qed.

Lemma days_in_month_le_31 y m : 1 <= m <= 12 -> days_in_month y m <= 31.
Proof. rewrite days_in_month_of. apply dim_of_le_31. Qed.

(** [_ord2ymd] is right: what it gives is a date, and the date has the
    ordinal it was computed from. *)
Lemma ord2ymd_correct n :
  1 <= n ->
  let '(y, m, d) := ord2ymd n in
  1 <= y /\ 1 <= m <= 12 /\ 1 <= d <= days_in_month y m /\ ymd2ord y m d = n.
Proof.
  intros Hn. unfold ord2ymd. cbv zeta.
  unfold DI400Y, DI100Y, DI4Y.
  set (n0 := n - 1).
  set (q400 := n0 / 146097). set (r400 := n0 mod 146097).
  set (q100 := r400 / 36524). set (r100 := r400 mod 36524).
  set (q4 := r100 / 1461). set (r4 := r100 mod 1461).
  set (q1 := r4 / 365). set (r1 := r4 mod 365).
  assert (E400 : n0 = 146097 * q400 + r400 /\ 0 <= r400 < 146097)
    by (subst q400 r400; split; [apply Z.div_mod | apply Z.mod_pos_bound]; lia).
  assert (E100 : r400 = 36524 * q100 + r100 /\ 0 <= r100 < 36524)
    by (subst q100 r100; split; [apply Z.div_mod | apply Z.mod_pos_bound]; lia).
  assert (E4 : r100 = 1461 * q4 + r4 /\ 0 <= r4 < 1461)
    by (subst q4 r4; split; [apply Z.div_mod | apply Z.mod_pos_bound]; lia).
  assert (E1 : r4 = 365 * q1 + r1 /\ 0 <= r1 < 365)
    by (subst q1 r1; split; [apply Z.div_mod | apply Z.mod_pos_bound]; lia).
  clearbody q400 r400 q100 r100 q4 r4 q1 r1.
  assert (Hq : 0 <= q400 /\ 0 <= q100 <= 4 /\ 0 <= q4 <= 24 /\ 0 <= q1 <= 4)
    by lia.
  set (Y := q400 * 400 + 1 + (q100 * 100 + q4 * 4 + q1)).
  destruct ((q1 =? 4) || (q100 =? 4)) eqn:Esp.
  - (* the last day of a leap year *)
    apply orb_true_iff in Esp. rewrite !Z.eqb_eq in Esp.
    assert (L : is_leap (Y - 1) = true)
      by (apply is_leap_spec; subst Y; Z.div_mod_to_equations; lia).
    rewrite days_in_month_of. unfold ymd2ord.
    rewrite days_before_month_of, L. eval_tables.
    split; [lia|]. split; [lia|]. split; [lia|].
    unfold days_before_year. cbv zeta. subst Y.
    Z.div_mod_to_equations. lia.
  - apply orb_false_iff in Esp. rewrite !Z.eqb_neq in Esp.
    assert (L : (q1 =? 3) && (negb (q4 =? 24) || (q100 =? 3)) = is_leap Y).
    { destruct (is_leap Y) eqn:E;
        [apply is_leap_spec in E | apply is_leap_false in E].
      - rewrite andb_true_iff, orb_true_iff, negb_true_iff, !Z.eqb_eq, Z.eqb_neq.
        subst Y. Z.div_mod_to_equations. lia.
      - rewrite andb_false_iff, orb_false_iff, negb_false_iff,
          !Z.eqb_eq, !Z.eqb_neq.
        subst Y. Z.div_mod_to_equations. lia. }
    rewrite L.
    pose proof (month_day_table (is_leap Y) r1) as T.
    unfold month_day_ok, month_day in T. cbv zeta in T.
    destruct (if _ >? r1 then _ else _) as [m p] eqn:Em.
    rewrite !andb_true_iff, !Z.leb_le, Z.eqb_eq in T.
    rewrite days_in_month_of. unfold ymd2ord. rewrite days_before_month_of.
    assert (B : 0 <= r1 < 365 + b2z (is_leap Y))
      by (destruct (is_leap Y); cbn; lia).
    specialize (T B).
    assert (D : days_before_year Y = n0 - r1).
    { unfold days_before_year. cbv zeta. subst Y.
      Z.div_mod_to_equations. lia. }
    rewrite D. subst n0. lia.
Qed.

(** Within a year, the days before a month and the day count the days of
    the year: between 1 and 365 (366 in a leap year). *)
Lemma day_of_year_bounds leap m d :
  1 <= m <= 12 -> 1 <= d <= dim_of leap m ->
  1 <= dbm_of leap m + d <= 365 + b2z leap.
Proof.
  intros Hm Hd.
  pose proof (month_day_inv_table leap m d Hm (proj1 Hd)) as T.
  unfold month_day_inv_ok in T.
  destruct (Z.leb_spec d (dim_of leap m)); [|lia].
  cbv zeta in T. rewrite !andb_true_iff, Z.leb_le, Z.ltb_lt in T. lia.
Qed.

Lemma ymd2ord_bounds y m d :
  1 <= m <= 12 -> 1 <= d <= days_in_month y m ->
  days_before_year y < ymd2ord y m d <= days_before_year (y + 1).
Proof.
  intros Hm Hd. rewrite days_in_month_of in Hd.
  pose proof (day_of_year_bounds _ _ _ Hm Hd).
  rewrite days_before_year_succ. unfold ymd2ord.
  rewrite days_before_month_of. lia.
Qed.

(** Two dates with the same ordinal are the same date. *)
Lemma ymd2ord_inj y m d y' m' d' :
  1 <= m <= 12 -> 1 <= d <= days_in_month y m ->
  1 <= m' <= 12 -> 1 <= d' <= days_in_month y' m' ->
  ymd2ord y m d = ymd2ord y' m' d' ->
  (y, m, d) = (y', m', d').
Proof.
  intros Hm Hd Hm' Hd' E.
  pose proof (ymd2ord_bounds _ _ _ Hm Hd) as B.
  pose proof (ymd2ord_bounds _ _ _ Hm' Hd') as B'.
  assert (y = y').
  { destruct (Z.lt_trichotomy y y') as [L|[L|L]]; [|assumption|].
    - pose proof (days_before_year_mono (y + 1) y'). lia.
    - pose proof (days_before_year_mono (y' + 1) y). lia. }
  subst y'. unfold ymd2ord in E. rewrite !days_before_month_of in E.
  rewrite days_in_month_of in Hd, Hd'.
  pose proof (month_day_inv_table (is_leap y) m d Hm (proj1 Hd)) as T.
  pose proof (month_day_inv_table (is_leap y) m' d' Hm' (proj1 Hd')) as T'.
  unfold month_day_inv_ok in T, T'. cbv zeta in T, T'.
  destruct (Z.leb_spec d (dim_of (is_leap y) m)); [|lia].
  destruct (Z.leb_spec d' (dim_of (is_leap y) m')); [|lia].
  replace (dbm_of (is_leap y) m' + d' - 1)
    with (dbm_of (is_leap y) m + d - 1) in T' by lia.
  destruct (month_day _ _) as [a b].
  rewrite !andb_true_iff, !Z.eqb_eq in T, T'.
  f_equal; [f_equal|]; lia.
Qed.

(** [_ord2ymd] undoes [_ymd2ord]. *)
Lemma ord2ymd_ymd2ord y m d :
  1 <= y -> 1 <= m <= 12 -> 1 <= d <= days_in_month y m ->
  ord2ymd (ymd2ord y m d) = (y, m, d).
Proof.
  intros Hy Hm Hd.
  pose proof (ymd2ord_bounds _ _ _ Hm Hd) as B.
  pose proof (days_before_year_mono 1 y Hy) as P.
  change (days_before_year 1) with 0 in P.
  pose proof (ord2ymd_correct (ymd2ord y m d) ltac:(lia)) as C.
  destruct (ord2ymd _) as [[y' m'] d'].
  destruct C as (_ & Hm' & Hd' & E).
  apply (ymd2ord_inj _ _ _ _ _ _ Hm' Hd' Hm Hd E).
Qed.

Lemma valid_date_spec d :
  valid_date d <->
  1 <= year d <= 9999 /\ 1 <= month d <= 12
  /\ 1 <= day d <= days_in_month (year d) (month d).
Proof.
  unfold valid_date, check_date_fields, MINYEAR, MAXYEAR.
  rewrite !andb_true_iff, !Z.leb_le. tauto.
Qed.

(** The constructor accepts exactly the fields that pass its check, and
    raises a [ValueError] on the others. *)
Lemma date_new_cases y m d :
  (check_date_fields y m d = true /\ date_new y m d = Ok (mkdate y m d))
  \/ (check_date_fields y m d = false
      /\ exists msg, date_new y m d = Raise (ValueError msg)).
Proof.
  unfold check_date_fields, date_new.
  destruct ((MINYEAR <=? y) && (y <=? MAXYEAR)); cbn; [|right; eauto].
  destruct (1 <=? m); cbn; [|right; eauto].
  destruct (m <=? 12); cbn; [|right; eauto].
  destruct (1 <=? d); cbn; [|right; eauto].
  destruct (d <=? days_in_month y m); cbn; [left|right]; eauto.
Qed.

(** The ordinals of the dates: 1 for 0001-01-01, [MAXORDINAL] for
    9999-12-31. *)
Lemma toordinal_bounds d : valid_date d -> 1 <= toordinal d <= MAXORDINAL.
Proof.
  intros V. apply valid_date_spec in V. destruct V as (Hy & Hm & Hd).
  pose proof (ymd2ord_bounds _ _ _ Hm Hd) as B.
  pose proof (days_before_year_mono 1 (year d) ltac:(lia)) as P.
  pose proof (days_before_year_mono (year d + 1) 10000 ltac:(lia)) as Q.
  change (days_before_year 1) with 0 in P.
  change (days_before_year 10000) with 3652059 in Q.
  unfold toordinal, MAXORDINAL. lia.
Qed.

(** [date.fromordinal] on an ordinal of the supported range: a date, the
    one with that ordinal. *)
Lemma fromordinal_ok n :
  1 <= n <= MAXORDINAL ->
  exists d, fromordinal n = Ok d /\ valid_date d /\ toordinal d = n.
Proof.
  intros Hn. unfold fromordinal.
  pose proof (ord2ymd_correct n (proj1 Hn)) as C.
  destruct (ord2ymd n) as [[y m] d].
  destruct C as (Hy & Hm & Hd & E).
  assert (y <= 9999).
  { destruct (Z.le_gt_cases y 9999) as [|G]; [assumption|].
    pose proof (ymd2ord_bounds _ _ _ Hm Hd) as B.
    pose proof (days_before_year_mono 10000 y ltac:(lia)) as Q.
    change (days_before_year 10000) with 3652059 in Q.
    unfold MAXORDINAL in Hn. lia. }
  assert (V : valid_date (mkdate y m d)) by (apply valid_date_spec; cbn; lia).
  exists (mkdate y m d). split; [|split; [exact V | exact E]].
  destruct (date_new_cases y m d) as [[_ ->]|[C _]]; [reflexivity|].
  unfold valid_date in V. cbn in V. congruence.
Qed.

Lemma toordinal_inj d d' :
  valid_date d -> valid_date d' -> toordinal d = toordinal d' -> d = d'.
Proof.
  intros V V' E. apply valid_date_spec in V, V'.
  destruct d as [y m a], d' as [y' m' a']. cbn in *.
  assert (T : (y, m, a) = (y', m', a'))
    by (apply ymd2ord_inj; tauto).
  congruence.
Qed.

(** What [date + timedelta(days)] is: inside the calendar the date whose
    ordinal is [days] further, outside an [OverflowError]. *)
Lemma date_add_in_range d k :
  1 <= toordinal d + k <= MAXORDINAL ->
  exists d', date_add d k = Ok d' /\ valid_date d'
             /\ toordinal d' = toordinal d + k.
Proof.
  intros H. unfold date_add. cbv zeta.
  replace ((0 <? toordinal d + k) && (toordinal d + k <=? MAXORDINAL))
    with true by (symmetry; apply andb_true_iff; split;
                  [apply Z.ltb_lt | apply Z.leb_le]; lia).
  apply fromordinal_ok, H.
Qed.

Lemma date_add_out_of_range d k :
  ~ (1 <= toordinal d + k <= MAXORDINAL) ->
  date_add d k = Raise (OverflowError "date value out of range").
Proof.
  intros H. unfold date_add. cbv zeta.
  destruct (Z.ltb_spec 0 (toordinal d + k));
    destruct (Z.leb_spec (toordinal d + k) MAXORDINAL); cbn; try reflexivity.
  lia.
Qed.

Lemma date_add_zero d : valid_date d -> date_add d 0 = Ok d.
Proof.
  intros V. pose proof (toordinal_bounds d V) as B.
  destruct (date_add_in_range d 0 ltac:(lia)) as (d' & E & V' & O).
  rewrite E. f_equal. apply toordinal_inj; [assumption..|lia].
Qed.

(** The calendar's successor adds one to the ordinal, across the ends of
    months and years. *)
Lemma tomorrow_toordinal d :
  1 <= month d <= 12 -> 1 <= day d <= days_in_month (year d) (month d) ->
  toordinal (tomorrow d) = toordinal d + 1
  /\ 1 <= month (tomorrow d) <= 12
  /\ 1 <= day (tomorrow d)
          <= days_in_month (year (tomorrow d)) (month (tomorrow d)).
Proof.
  destruct d as [y m a]. unfold tomorrow, toordinal, ymd2ord.
  cbn [year month day]. intros Hm Ha.
  destruct (Z.ltb_spec a (days_in_month y m)) as [L|L]; cbn [year month day].
  - lia.
  - assert (a = days_in_month y m) by lia. subst a.
    destruct (Z.ltb_spec m 12) as [M|M]; cbn [year month day].
    + rewrite !days_in_month_of, !days_before_month_of.
      pose proof (month_succ_table (is_leap y) m ltac:(lia)). lia.
    + assert (m = 12) by lia. subst m.
      rewrite days_before_year_succ, !days_in_month_of, !days_before_month_of.
      generalize (days_before_year y). intros D.
      destruct (is_leap y), (is_leap (y + 1)); eval_tables; lia.
Qed.

End CalendarFacts.

(** ** Parsing and printing *)

Module ParseFacts.

Import Strptime Tables Spec CalendarFacts.

Lemma is_digit_In c : is_digit c = true -> In c DIGITS.
Proof.
  destruct c as [[] [] [] [] [] [] [] []]; vm_compute; intros H;
    try discriminate; tauto.
Qed.

Lemma tail_table m1 m2 d1 d2 :
  is_digit m1 = true -> is_digit m2 = true ->
  is_digit d1 = true -> is_digit d2 = true ->
  tail_ok m1 m2 d1 d2 = true.
Proof.
  intros H1 H2 H3 H4.
  assert (A : forallb (fun a => forallb (fun b => forallb (fun c =>
                forallb (tail_ok a b c) DIGITS) DIGITS) DIGITS) DIGITS = true)
    by (vm_compute; reflexivity).
  rewrite forallb_forall in A. specialize (A _ (is_digit_In _ H1)).
  rewrite forallb_forall in A. specialize (A _ (is_digit_In _ H2)).
  rewrite forallb_forall in A. specialize (A _ (is_digit_In _ H3)).
  rewrite forallb_forall in A. exact (A _ (is_digit_In _ H4)).
Qed.

Lemma year_text_table y : 1000 <= y <= 9999 -> year_text_ok y = true.
Proof.
  intros H.
  assert (A : forallb year_text_ok (zrange 1000 (Z.to_nat 9000)) = true)
    by (vm_compute; reflexivity).
  rewrite forallb_forall in A. apply A, zrange_In.
  rewrite Z2Nat.id; lia.
Qed.

Lemma two_text_table v : 0 <= v <= 99 -> two_text_ok v = true.
Proof.
  intros H.
  assert (A : forallb two_text_ok (zrange 0 100) = true)
    by (vm_compute; reflexivity).
  rewrite forallb_forall in A. apply A, zrange_In. lia.
Qed.

(** [\d\d\d\d] on four digits: one way to match, the four of them. *)
Lemma re_Y_digits a b c e rest :
  is_digit a = true -> is_digit b = true ->
  is_digit c = true -> is_digit e = true ->
  re_Y (String a (String b (String c (String e rest))))
  = [(String a (String b (String c (String e ""))), rest)].
Proof.
  unfold is_digit. intros Ha Hb Hc He.
  unfold re_Y, rx_seq, digit, rx_class.
  rewrite Ha. cbn. rewrite Hb. cbn. rewrite Hc. cbn. rewrite He. reflexivity.
Qed.

Lemma format_regex_digits a b c e rest :
  is_digit a = true -> is_digit b = true ->
  is_digit c = true -> is_digit e = true ->
  format_regex (String a (String b (String c (String e rest))))
  = map (fun '(m, d, s4) =>
           mkfound (String a (String b (String c (String e "")))) m d s4)
        (re_tail rest).
Proof.
  intros Ha Hb Hc He. unfold format_regex.
  rewrite re_Y_digits by assumption. cbn [flat_map]. apply app_nil_r.
Qed.

(** The parser lets no other error than the program's own through, and
    what it returns is a date. *)
Lemma validate_date_cases s :
  (exists d, validate_date s = Ok d /\ valid_date d)
  \/ validate_date s = Raise InvalidFormat.
Proof.
  unfold validate_date, strptime_date.
  destruct (re_match s) as [f|]; [|right; reflexivity].
  destruct (unconverted f); [|right; reflexivity].
  destruct (date_new_cases (int (group_Y f)) (int (group_m f)) (int (group_d f)))
    as [[C ->]|[C [msg ->]]]; [left|right; reflexivity].
  eexists; split; [reflexivity|exact C].
Qed.

(** On a string of the shape YYYY-MM-DD the parser returns the date the
    fields spell when there is such a date, and fails otherwise. *)
Lemma validate_date_strict s :
  matches_YYYY_MM_DD s = true ->
  validate_date s =
  let '(y, m, d) := fields_YYYY_MM_DD s in
  if check_date_fields y m d then Ok (mkdate y m d) else Raise InvalidFormat.
Proof.
  unfold matches_YYYY_MM_DD.
  destruct s as [|y1 [|y2 [|y3 [|y4 [|h1 [|m1 [|m2 [|h2 [|d1 [|d2 [|x s]]]]]]]]]]];
    cbn [list_ascii_of_string]; try discriminate.
  rewrite !andb_true_iff, !Ascii.eqb_eq.
  intros (((((((((Hy1 & Hy2) & Hy3) & Hy4) & ->) & Hm1) & Hm2) & ->) & Hd1) & Hd2).
  unfold fields_YYYY_MM_DD. cbn [substring].
  pose proof (tail_table m1 m2 d1 d2 Hm1 Hm2 Hd1 Hd2) as T.
  unfold tail_ok in T. cbv zeta in T.
  unfold validate_date, strptime_date, re_match.
  rewrite format_regex_digits by assumption.
  unfold two in T. cbn [append] in T.
  set (t := String "-" (String m1 (String m2
              (String "-" (String d1 (String d2 "")))))) in *.
  set (Y := int (String y1 (String y2 (String y3 (String y4 ""))))).
  set (M := int (String m1 (String m2 ""))) in *.
  set (D := int (String d1 (String d2 ""))) in *.
  destruct ((1 <=? M) && (M <=? 12) && (1 <=? D) && (D <=? 31)) eqn:R.
  - destruct (re_tail t) as [|[[mt dt] rt] l]; [discriminate|].
    unfold fields_eqb in T. rewrite !andb_true_iff, !String.eqb_eq in T.
    destruct T as ((-> & ->) & ->).
    cbn [map hd_error unconverted group_Y group_m group_d]. fold Y M D.
    destruct (date_new_cases Y M D) as [[C ->]|[C [msg ->]]]; rewrite C;
      reflexivity.
  - assert (C : check_date_fields Y M D = false).
    { unfold check_date_fields.
      destruct (Z.leb_spec 1 M), (Z.leb_spec M 12), (Z.leb_spec 1 D);
        rewrite ?andb_false_r; cbn [andb]; try reflexivity.
      cbn [andb] in R. rewrite ?andb_true_r.
      destruct (Z.leb_spec D 31); [discriminate|].
      pose proof (days_in_month_le_31 Y M ltac:(lia)).
      destruct (Z.leb_spec D (days_in_month Y M)); [lia|].
      apply andb_false_r. }
    rewrite C.
    destruct (re_tail t) as [|[[mt dt] rt] l]; [reflexivity|].
    cbn [map hd_error unconverted].
    destruct rt; [discriminate|reflexivity].
Qed.

Lemma append_empty_r s : s ++ "" = s.
Proof. induction s as [|c s IH]; cbn; [|rewrite IH]; reflexivity. Qed.

Lemma strftime_default pd d :
  Strftime.strftime pd d default_format
  = str_int (year d) ++ "-"
    ++ Strftime.zfill 2 (str_int (month d)) ++ "-"
    ++ Strftime.zfill 2 (str_int (day d)).
Proof.
  unfold default_format.
  cbn [Strftime.strftime Strftime.directive Ascii.eqb Bool.eqb].
  set (a := str_int (year d)). set (b := Strftime.zfill 2 _).
  set (c := Strftime.zfill 2 _).
  cbn [append]. rewrite (append_empty_r c). reflexivity.
Qed.

(** From the year 1000 on, what the default pattern prints is of the
    shape YYYY-MM-DD and parses back to the date printed. *)
Lemma validate_date_strftime pd d :
  valid_date d -> 1000 <= year d ->
  matches_YYYY_MM_DD (Strftime.strftime pd d default_format) = true
  /\ validate_date (Strftime.strftime pd d default_format) = Ok d.
Proof.
  intros V Y1000. pose proof V as V'. apply valid_date_spec in V'.
  destruct V' as (Hy & Hm & Hd).
  pose proof (days_in_month_le_31 (year d) (month d) Hm) as Hd31.
  pose proof (year_text_table (year d) ltac:(lia)) as TY.
  pose proof (two_text_table (month d) ltac:(lia)) as TM.
  pose proof (two_text_table (day d) ltac:(lia)) as TD.
  unfold year_text_ok in TY. unfold two_text_ok in TM, TD.
  assert (S : matches_YYYY_MM_DD (Strftime.strftime pd d default_format) = true
              /\ fields_YYYY_MM_DD (Strftime.strftime pd d default_format)
                 = (year d, month d, day d)).
  { rewrite strftime_default.
    destruct (str_int (year d)) as [|a [|b [|c [|e [|]]]]];
      try (cbn in TY; discriminate).
    destruct (Strftime.zfill 2 (str_int (month d))) as [|m1 [|m2 [|]]];
      try (cbn in TM; discriminate).
    destruct (Strftime.zfill 2 (str_int (day d))) as [|d1 [|d2 [|]]];
      try (cbn in TD; discriminate).
    cbv beta iota in TY, TM, TD.
    rewrite !andb_true_iff, Z.eqb_eq in TY.
    rewrite !andb_true_iff, Z.eqb_eq in TM.
    rewrite !andb_true_iff, Z.eqb_eq in TD.
    destruct TY as ((((A1 & A2) & A3) & A4) & EY).
    destruct TM as ((B1 & B2) & EM). destruct TD as ((C1 & C2) & ED).
    split.
    - unfold matches_YYYY_MM_DD. cbn [append list_ascii_of_string].
      rewrite A1, A2, A3, A4, B1, B2, C1, C2. reflexivity.
    - unfold fields_YYYY_MM_DD. cbn [append substring].
      unfold two in EM, ED. rewrite EY, EM, ED. reflexivity. }
  destruct S as [S1 S2]. split; [exact S1|].
  rewrite (validate_date_strict _ S1), S2.
  unfold valid_date in V. rewrite V. destruct d; reflexivity.
Qed.

End ParseFacts.

(** ** The generator and the injection *)

Module InjectFacts.
Import Spec CalendarFacts.

Lemma randbelow_range n g :
  0 < n -> 0 <= fst (Random.randbelow n g) < n.
Proof. intros H. cbn. apply Z.mod_pos_bound, H. Qed.

(** The draw of line 92 cannot fail and lands in [-|r|, |r|]. *)
Lemma draw_ok r g : exists v, draw r g = Ok v /\ - Z.abs r <= v <= Z.abs r.
Proof.
  unfold draw, Random.randint, Random.randrange. cbv zeta.
  destruct (Z.gtb_spec (Z.abs r + 1 - - Z.abs r) 0) as [P|P]; [|lia].
  pose proof (randbelow_range _ g P) as B.
  destruct (Random.randbelow _ g) as [k g']. cbn in *.
  eexists; split; [reflexivity|lia].
Qed.

(** Every offset of [-|r|, |r|] is drawn in some generator state. *)
Lemma draw_onto r v :
  - Z.abs r <= v <= Z.abs r -> draw r (Random.rng_next (v + Z.abs r)) = Ok v.
Proof.
  intros H. unfold draw, Random.randint, Random.randrange. cbv zeta.
  destruct (Z.gtb_spec (Z.abs r + 1 - - Z.abs r) 0) as [P|P]; [|lia].
  cbn. f_equal. rewrite Z.mod_small by lia. lia.
Qed.

(** The injection as a function of its arguments and of the draw. *)
Lemma inject_date_variance_fst d r m g :
  fst (inject_date_variance d r m g) =
  if Z.abs r >? m then Raise (RangeExceeded r m)
  else match draw r g with
       | Ok v => match timedelta_days v with
                 | Ok k => date_add d k
                 | Raise e => Raise e
                 end
       | Raise e => Raise e
       end.
Proof.
  unfold inject_date_variance, draw.
  destruct (Z.abs r >? m); [reflexivity|].
  unfold bind, lift, ret.
  destruct (Random.randint _ _ g) as [[v|e] g']; cbn; [|reflexivity].
  destruct (timedelta_days v) as [k|e]; cbn; [|reflexivity].
  destruct (date_add d k); reflexivity.
Qed.

(** A refused range leaves the generator as it was. *)
Lemma inject_date_variance_refused d r m g :
  Z.abs r > m ->
  inject_date_variance d r m g = (Raise (RangeExceeded r m), g).
Proof.
  intros H. unfold inject_date_variance.
  destruct (Z.gtb_spec (Z.abs r) m); [reflexivity|lia].
Qed.

Lemma inject_date_variance_draw d r m g v :
  Z.abs r <= m -> draw r g = Ok v ->
  (valid_date d -> 1 <= toordinal d + v <= MAXORDINAL ->
   fst (inject_date_variance d r m g) = date_add d v)
  /\ (~ (1 <= toordinal d + v <= MAXORDINAL) ->
      exists msg, fst (inject_date_variance d r m g)
                  = Raise (OverflowError msg)).
Proof.
  intros Hr Hv. rewrite inject_date_variance_fst, Hv.
  destruct (Z.gtb_spec (Z.abs r) m); [lia|].
  unfold timedelta_days. split.
  - intros V B. pose proof (toordinal_bounds d V). unfold MAXORDINAL in *.
    destruct (Z.gtb_spec (Z.abs v) 999999999); [lia|reflexivity].
  - intros B. destruct (Z.gtb_spec (Z.abs v) 999999999); [eauto|].
    rewrite (date_add_out_of_range d v B). eauto.
Qed.

Lemma days_later_toordinal k : forall d,
  1 <= month d <= 12 -> 1 <= day d <= days_in_month (year d) (month d) ->
  toordinal (days_later k d) = toordinal d + Z.of_nat k
  /\ 1 <= month (days_later k d) <= 12
  /\ 1 <= day (days_later k d)
          <= days_in_month (year (days_later k d)) (month (days_later k d)).
Proof.
  induction k as [|k IH]; intros d Hm Hd.
  - cbn. split; [lia|tauto].
  - destruct (IH d Hm Hd) as (E & Hm' & Hd').
    change (days_later (S k) d) with (tomorrow (days_later k d)).
    destruct (tomorrow_toordinal _ Hm' Hd') as (E' & Hm'' & Hd'').
    split; [lia|tauto].
Qed.

(** Ordinals that differ by [v] belong to dates [v] calendar days apart. *)
Lemma shifted_of_toordinal d v d' :
  valid_date d -> valid_date d' -> toordinal d' = toordinal d + v ->
  shifted d v d'.
Proof.
  intros V V' E. apply valid_date_spec in V, V'.
  destruct V as (Hy & Hm & Hd), V' as (Hy' & Hm' & Hd').
  unfold shifted. destruct (Z.leb_spec 0 v) as [P|P].
  - destruct (days_later_toordinal (Z.to_nat v) d Hm Hd) as (O & Hm2 & Hd2).
    destruct d' as [y' m' a'], (days_later (Z.to_nat v) d) as [y2 m2 a2].
    unfold toordinal in *. cbn [year month day] in *.
    assert (T : (y', m', a') = (y2, m2, a2)) by (apply ymd2ord_inj; lia).
    congruence.
  - destruct (days_later_toordinal (Z.to_nat (- v)) d' Hm' Hd') as (O & Hm2 & Hd2).
    destruct d as [y m a], (days_later (Z.to_nat (- v)) d') as [y2 m2 a2].
    unfold toordinal in *. cbn [year month day] in *.
    assert (T : (y, m, a) = (y2, m2, a2)) by (apply ymd2ord_inj; lia).
    congruence.
Qed.

End InjectFacts.

(** ** The claims *)

Module Claims.
Import Spec CalendarFacts ParseFacts InjectFacts.

Lemma main_body_fst pd a g :
  fst (main_body pd a g) =
  match validate_date (arg_date a) with
  | Ok d =>
      match fst (inject_date_variance d (arg_range a) (arg_max_range a) g) with
      | Ok d' => Ok (Strftime.strftime pd d' (arg_format a))
      | Raise e => Raise e
      end
  | Raise e => Raise e
  end.
Proof.
  unfold main_body, bind, lift, ret.
  destruct (validate_date (arg_date a)) as [d|e]; [|reflexivity].
  destruct (inject_date_variance d _ _ g) as [[d'|e] g']; reflexivity.
Qed.

(** What the injection can return at all: a date of the calendar, or an
    [OverflowError], or the refusal of the range. *)
Lemma inject_date_variance_results d r m g :
  valid_date d -> Z.abs r <= m ->
  exists v, draw r g = Ok v /\ - Z.abs r <= v <= Z.abs r
    /\ ((1 <= toordinal d + v <= MAXORDINAL
         /\ exists d', fst (inject_date_variance d r m g) = Ok d'
                       /\ valid_date d' /\ toordinal d' = toordinal d + v)
        \/ (~ (1 <= toordinal d + v <= MAXORDINAL)
            /\ exists msg, fst (inject_date_variance d r m g)
                           = Raise (OverflowError msg))).
Proof.
  intros V Hr. destruct (draw_ok r g) as (v & Hv & B).
  exists v. split; [exact Hv|]. split; [exact B|].
  destruct (inject_date_variance_draw d r m g v Hr Hv) as [In Out].
  assert (D : (1 <= toordinal d + v <= MAXORDINAL)
              \/ ~ (1 <= toordinal d + v <= MAXORDINAL)) by lia.
  destruct D as [D|D]; [left|right]; (split; [exact D|]).
  - rewrite (In V D). destruct (date_add_in_range d v D) as (d' & E & V' & O).
    exists d'. auto.
  - apply Out, D.
Qed.

(** C1: with [|r| <= m], the offset drawn lies in [-|r|, |r|]; a date the
    injection returns is the valid date exactly that many calendar days
    from [d], so it lies within [|r|] days of [d]; and a date is returned
    whenever that day is in the calendar. *)
Theorem inject_date_variance_within_range d r m g :
  valid_date d -> Z.abs r <= m ->
  exists v,
    draw r g = Ok v /\ - Z.abs r <= v <= Z.abs r
    /\ (forall d', fst (inject_date_variance d r m g) = Ok d' ->
          valid_date d' /\ toordinal d' = toordinal d + v /\ shifted d v d'
          /\ toordinal d - Z.abs r <= toordinal d' <= toordinal d + Z.abs r)
    /\ (1 <= toordinal d + v <= MAXORDINAL ->
          exists d', fst (inject_date_variance d r m g) = Ok d').
Proof.
  intros V Hr.
  destruct (inject_date_variance_results d r m g V Hr)
    as (v & Hv & B & [(D & d1 & E & V1 & O)|(D & msg & E)]);
    exists v; (split; [exact Hv|]); (split; [exact B|]); split.
  - intros d' E'. rewrite E in E'. injection E' as <-.
    split; [exact V1|]. split; [exact O|].
    split; [apply shifted_of_toordinal; assumption | lia].
  - intros _. exists d1. exact E.
  - intros d' E'. rewrite E in E'. discriminate.
  - intros D'. contradiction.
Qed.

Lemma inject_date_variance_within_range_witness :
  valid_date (mkdate 2024 2 25) /\ Z.abs (-10) <= 365
  /\ exists v,
       draw (-10) (Random.rng_next 20) = Ok v /\ - Z.abs (-10) <= v <= Z.abs (-10)
       /\ (forall d',
             fst (inject_date_variance (mkdate 2024 2 25) (-10) 365
                    (Random.rng_next 20)) = Ok d' ->
             valid_date d'
             /\ toordinal d' = toordinal (mkdate 2024 2 25) + v
             /\ shifted (mkdate 2024 2 25) v d'
             /\ toordinal (mkdate 2024 2 25) - Z.abs (-10) <= toordinal d'
                <= toordinal (mkdate 2024 2 25) + Z.abs (-10))
       /\ (1 <= toordinal (mkdate 2024 2 25) + v <= MAXORDINAL ->
           exists d',
             fst (inject_date_variance (mkdate 2024 2 25) (-10) 365
                    (Random.rng_next 20)) = Ok d').
Proof.
  split; [reflexivity|]. split; [cbn; lia|].
  apply (inject_date_variance_within_range (mkdate 2024 2 25) (-10) 365
           (Random.rng_next 20)); [reflexivity | cbn; lia].
Defined.

Example inject_leap_example :
  fst (inject_date_variance (mkdate 2024 2 25) (-10) 365 (Random.rng_next 20))
  = Ok (mkdate 2024 3 6).
Proof. reflexivity. Qed.

(** With an accepted range the injection raises no [ValueError]. *)
Lemma inject_date_variance_accepted d r m g :
  Z.abs r <= m ->
  (exists d', fst (inject_date_variance d r m g) = Ok d')
  \/ (exists msg, fst (inject_date_variance d r m g) = Raise (OverflowError msg)).
Proof.
  intros Hr. rewrite inject_date_variance_fst.
  destruct (Z.gtb_spec (Z.abs r) m); [lia|].
  destruct (draw_ok r g) as (v & -> & _).
  unfold timedelta_days. destruct (Z.abs v >? 999999999); [right; eauto|].
  assert (D : (1 <= toordinal d + v <= MAXORDINAL)
              \/ ~ (1 <= toordinal d + v <= MAXORDINAL)) by lia.
  destruct D as [D|D].
  - destruct (date_add_in_range d v D) as (d' & -> & _). left; eauto.
  - rewrite (date_add_out_of_range d v D). right; eauto.
Qed.

(** C2: the range check lets a call pass exactly when [|r| <= m]; a call
    it refuses raises the [ValueError] whose message spells both the range
    and the maximum, and the generator is left as it was. *)
Theorem range_validation d r m g :
  (range_accepted d r m g = true <-> Z.abs r <= m)
  /\ (Z.abs r > m ->
      inject_date_variance d r m g = (Raise (RangeExceeded r m), g)
      /\ exn_msg (RangeExceeded r m)
         = "The specified range (" ++ str_int r
           ++ ") exceeds the maximum allowed range (" ++ str_int m ++ ").").
Proof.
  split.
  - unfold range_accepted. split.
    + intros A. destruct (Z.gtb_spec (Z.abs r) m) as [G|G]; [|exact G].
      rewrite (inject_date_variance_refused d r m g) in A by lia.
      discriminate.
    + intros Hr.
      destruct (inject_date_variance_accepted d r m g Hr)
        as [[d' ->]|[msg ->]]; reflexivity.
  - intros G. split; [apply inject_date_variance_refused, G | reflexivity].
Qed.

Lemma range_validation_witness :
  Z.abs 50 > 30
  /\ inject_date_variance (mkdate 2023 10 26) 50 30 (Random.rng_next 7)
     = (Raise (RangeExceeded 50 30), Random.rng_next 7).
Proof.
  split; [cbn; lia|].
  apply (proj2 (range_validation (mkdate 2023 10 26) 50 30 (Random.rng_next 7))).
  cbn; lia.
Defined.

Example range_message_example :
  exn_msg (RangeExceeded 50 30)
  = "The specified range (50) exceeds the maximum allowed range (30).".
Proof. reflexivity. Qed.

(** The claim of C3 read literally fails: with a date that does not parse
    the run ends on the parser's error, whatever the range. *)
Lemma range_exceeded_not_first :
  Z.abs 50 > 30
  /\ fst (main_body (fun _ _ => "") (mkargs "2023/10/26" 50 30 default_format)
            (Random.rng_next 0))
     = Raise InvalidFormat
  /\ fst (main_body (fun _ _ => "") (mkargs "2023/10/26" 50 30 default_format)
            (Random.rng_next 0))
     <> Raise (RangeExceeded 50 30).
Proof.
  split; [cbn; lia|]. split; [reflexivity|].
  vm_compute. discriminate.
Qed.

(** C3, amended: with [|r| > m] a run prints nothing, logs one error line
    and exits with status 1.  The date is parsed first: when it parses, the
    error raised and logged is the refusal of the range; when it does not,
    it is the parser's error. *)
Theorem range_exceeded_run pd asctime a g :
  Z.abs (arg_range a) > arg_max_range a ->
  stdout (main pd asctime a g) = []
  /\ exit_code (main pd asctime a g) = 1
  /\ (exists e,
        (e = RangeExceeded (arg_range a) (arg_max_range a) \/ e = InvalidFormat)
        /\ fst (main_body pd a g) = Raise e
        /\ stderr (main pd asctime a g)
           = [logging_error asctime ("Error: " ++ exn_msg e)])
  /\ (forall d, validate_date (arg_date a) = Ok d ->
        fst (main_body pd a g)
        = Raise (RangeExceeded (arg_range a) (arg_max_range a))
        /\ stderr (main pd asctime a g)
           = [logging_error asctime
                ("Error: "
                 ++ exn_msg (RangeExceeded (arg_range a) (arg_max_range a)))])
  /\ (validate_date (arg_date a) = Raise InvalidFormat ->
      fst (main_body pd a g) = Raise InvalidFormat
      /\ stderr (main pd asctime a g)
         = [logging_error asctime ("Error: " ++ exn_msg InvalidFormat)])
  /\ ((exists d, validate_date (arg_date a) = Ok d)
      \/ validate_date (arg_date a) = Raise InvalidFormat).
Proof.
  intros G. unfold main. rewrite main_body_fst.
  destruct (validate_date_cases (arg_date a)) as [(d & P & V)|P]; rewrite P.
  - rewrite (inject_date_variance_refused d _ _ g G). cbn.
    repeat split; eauto; try discriminate.
  - cbn. repeat split; eauto; discriminate.
Qed.

Lemma range_exceeded_run_witness :
  Z.abs 50 > 30
  /\ stdout (main (fun _ _ => "") "2026-01-01 00:00:00,000"
               (mkargs "2023-10-26" 50 30 default_format) (Random.rng_next 0))
     = []
  /\ exit_code (main (fun _ _ => "") "2026-01-01 00:00:00,000"
                  (mkargs "2023-10-26" 50 30 default_format)
                  (Random.rng_next 0))
     = 1.
Proof.
  split; [cbn; lia|].
  destruct (range_exceeded_run (fun _ _ => "") "2026-01-01 00:00:00,000"
              (mkargs "2023-10-26" 50 30 default_format) (Random.rng_next 0)
              ltac:(cbn; lia)) as (A & B & _).
  split; [exact A | exact B].
Defined.

Example range_exceeded_run_example :
  main (fun _ _ => "") "2026-01-01 00:00:00,000"
    (mkargs "2023-10-26" 50 30 default_format) (Random.rng_next 0)
  = mkoutcome []
      ["2026-01-01 00:00:00,000 - ERROR - Error: The specified range (50) exceeds the maximum allowed range (30)."]
      1
  /\ main (fun _ _ => "") "2026-01-01 00:00:00,000"
       (mkargs "2023/10/26" 50 30 default_format) (Random.rng_next 0)
     = mkoutcome []
         ["2026-01-01 00:00:00,000 - ERROR - Error: Invalid date format. Please use YYYY-MM-DD (e.g., 2023-10-26)."]
         1.
Proof. split; reflexivity. Qed.

(** C4: the parser accepts strings that are not of the shape YYYY-MM-DD: a
    month or a day without its leading zero, a day padded with a blank. *)
Theorem validate_date_accepts_unpadded :
  matches_YYYY_MM_DD "2023-1-5" = false
  /\ validate_date "2023-1-5" = Ok (mkdate 2023 1 5)
  /\ matches_YYYY_MM_DD "2023-01- 5" = false
  /\ validate_date "2023-01- 5" = Ok (mkdate 2023 1 5).
Proof. repeat split. Qed.

(** C5: with a range of 0 the draw is 0 and the injection returns its
    date; a run prints that date, formatted. *)
Theorem zero_range_is_identity pd asctime s fmt d m g :
  valid_date d -> 0 <= m ->
  draw 0 g = Ok 0
  /\ fst (inject_date_variance d 0 m g) = Ok d
  /\ (validate_date s = Ok d ->
      main pd asctime (mkargs s 0 m fmt) g
      = mkoutcome [Strftime.strftime pd d fmt] [] 0).
Proof.
  intros V Hm.
  assert (D : draw 0 g = Ok 0).
  { destruct (draw_ok 0 g) as (v & E & B). rewrite E. f_equal. cbn in B. lia. }
  assert (I : fst (inject_date_variance d 0 m g) = Ok d).
  { rewrite inject_date_variance_fst, D.
    destruct (Z.gtb_spec (Z.abs 0) m); [cbn in *; lia|].
    cbn. apply date_add_zero, V. }
  split; [exact D|]. split; [exact I|].
  intros P. unfold main. rewrite main_body_fst. cbn. rewrite P, I. reflexivity.
Qed.

Lemma zero_range_is_identity_witness :
  valid_date (mkdate 2023 10 26) /\ 0 <= 365
  /\ main (fun _ _ => "") "" (mkargs "2023-10-26" 0 365 default_format)
       (Random.rng_next 12345)
     = mkoutcome ["2023-10-26"] [] 0.
Proof.
  split; [reflexivity|]. split; [lia|].
  apply (zero_range_is_identity (fun _ _ => "") "" "2023-10-26" default_format
           (mkdate 2023 10 26) 365 (Random.rng_next 12345));
    [reflexivity | lia | reflexivity].
Defined.


(** The claim of C6 read literally fails at the end of the calendar: from
    9999-12-31 no draw makes the injection return the day after. *)
Lemma endpoint_unreachable_at_calendar_end :
  valid_date (mkdate 9999 12 31) /\ Z.abs 1 <= 1 /\ - Z.abs 1 <= 1 <= Z.abs 1
  /\ ~ (exists g d',
          fst (inject_date_variance (mkdate 9999 12 31) 1 1 g) = Ok d'
          /\ toordinal d' = toordinal (mkdate 9999 12 31) + 1).
Proof.
  split; [reflexivity|]. split; [cbn; lia|]. split; [cbn; lia|].
  intros (g & d' & E & O).
  destruct (inject_date_variance_results (mkdate 9999 12 31) 1 1 g
              eq_refl ltac:(cbn; lia))
    as (v & _ & _ & [(_ & d1 & E1 & V1 & _)|(_ & msg & E1)]);
    rewrite E1 in E; [injection E as <- | discriminate].
  pose proof (toordinal_bounds d1 V1) as B.
  change (toordinal (mkdate 9999 12 31)) with MAXORDINAL in O. lia.
Qed.

(** C6, amended: every offset [v] of [-|r|, |r|] is drawn in some state of
    the generator, and in that state the injection returns the date [v]
    days from [d] whenever that day is in the calendar. *)
Theorem every_offset_reachable d r m v :
  valid_date d -> Z.abs r <= m -> - Z.abs r <= v <= Z.abs r ->
  exists g,
    draw r g = Ok v
    /\ (1 <= toordinal d + v <= MAXORDINAL ->
        exists d', fst (inject_date_variance d r m g) = Ok d'
                   /\ valid_date d' /\ toordinal d' = toordinal d + v
                   /\ shifted d v d').
Proof.
  intros V Hr Hv. exists (Random.rng_next (v + Z.abs r)).
  pose proof (draw_onto r v Hv) as D. split; [exact D|].
  intros B.
  destruct (inject_date_variance_draw d r m _ v Hr D) as [In _].
  rewrite (In V B).
  destruct (date_add_in_range d v B) as (d' & E & V' & O).
  exists d'. repeat split; try assumption.
  apply shifted_of_toordinal; assumption.
Qed.

Lemma every_offset_reachable_witness :
  valid_date (mkdate 2023 12 25) /\ Z.abs 10 <= 365
  /\ - Z.abs 10 <= 10 <= Z.abs 10
  /\ exists g,
       draw 10 g = Ok 10
       /\ (1 <= toordinal (mkdate 2023 12 25) + 10 <= MAXORDINAL ->
           exists d',
             fst (inject_date_variance (mkdate 2023 12 25) 10 365 g) = Ok d'
             /\ valid_date d'
             /\ toordinal d' = toordinal (mkdate 2023 12 25) + 10
             /\ shifted (mkdate 2023 12 25) 10 d').
Proof.
  split; [reflexivity|]. split; [cbn; lia|]. split; [cbn; lia|].
  apply (every_offset_reachable (mkdate 2023 12 25) 10 365 10);
    [reflexivity | cbn; lia | cbn; lia].
Defined.

Example endpoints_example :
  fst (inject_date_variance (mkdate 2023 10 26) 10 365 (Random.rng_next 0))
  = Ok (mkdate 2023 10 16)
  /\ fst (inject_date_variance (mkdate 2023 10 26) 10 365 (Random.rng_next 20))
     = Ok (mkdate 2023 11 5).
Proof. split; reflexivity. Qed.

(** The claim of C7 read literally fails below the year 1000: the year is
    printed with the digits it has, and the parser wants four. *)
Lemma roundtrip_fails_below_year_1000 :
  valid_date (mkdate 987 2 28)
  /\ Strftime.strftime (fun _ _ => "") (mkdate 987 2 28) default_format
     = "987-02-28"
  /\ validate_date
       (Strftime.strftime (fun _ _ => "") (mkdate 987 2 28) default_format)
     = Raise InvalidFormat
  /\ validate_date
       (Strftime.strftime (fun _ _ => "") (mkdate 987 2 28) default_format)
     <> Ok (mkdate 987 2 28).
Proof.
  split; [reflexivity|]. split; [reflexivity|]. split; [reflexivity|].
  vm_compute. discriminate.
Qed.

(** C7, amended: a date of the year 1000 or later, printed with the
    default pattern, parses back to itself. *)
Theorem strftime_validate_date_roundtrip pd d :
  valid_date d -> 1000 <= year d ->
  validate_date (Strftime.strftime pd d default_format) = Ok d.
Proof. intros V Y. apply validate_date_strftime; assumption. Qed.

Lemma strftime_validate_date_roundtrip_witness :
  valid_date (mkdate 2024 2 29) /\ 1000 <= year (mkdate 2024 2 29)
  /\ validate_date
       (Strftime.strftime (fun _ _ => "") (mkdate 2024 2 29) default_format)
     = Ok (mkdate 2024 2 29).
Proof.
  split; [reflexivity|]. split; [cbn; lia|].
  apply (strftime_validate_date_roundtrip (fun _ _ => "") (mkdate 2024 2 29));
    [reflexivity | cbn; lia].
Defined.



(** C9: an accepted range does not keep the injection from failing: when
    the offset drawn leads out of the calendar the shift raises an
    [OverflowError]; the run then prints nothing, logs it as an unexpected
    error and exits with status 1. *)
Theorem overflow_at_calendar_bounds d r m g v :
  valid_date d -> Z.abs r <= m -> draw r g = Ok v ->
  ~ (1 <= toordinal d + v <= MAXORDINAL) ->
  exists msg,
    fst (inject_date_variance d r m g) = Raise (OverflowError msg)
    /\ (forall pd asctime s fmt,
          validate_date s = Ok d ->
          main pd asctime (mkargs s r m fmt) g
          = mkoutcome []
              [logging_error asctime ("An unexpected error occurred: " ++ msg)]
              1).
Proof.
  intros V Hr D B.
  destruct (inject_date_variance_draw d r m g v Hr D) as [_ Out].
  destruct (Out B) as [msg E]. exists msg. split; [exact E|].
  intros pd asctime s fmt P. unfold main. rewrite main_body_fst.
  cbn [arg_date arg_range arg_max_range arg_format]. rewrite P, E. reflexivity.
Qed.

Lemma overflow_at_calendar_bounds_witness :
  valid_date (mkdate 9999 12 31) /\ Z.abs 1 <= 365
  /\ draw 1 (Random.rng_next 2) = Ok 1
  /\ ~ (1 <= toordinal (mkdate 9999 12 31) + 1 <= MAXORDINAL)
  /\ exists msg,
       fst (inject_date_variance (mkdate 9999 12 31) 1 365 (Random.rng_next 2))
       = Raise (OverflowError msg)
       /\ (forall pd asctime s fmt,
             validate_date s = Ok (mkdate 9999 12 31) ->
             main pd asctime (mkargs s 1 365 fmt) (Random.rng_next 2)
             = mkoutcome []
                 [logging_error asctime
                    ("An unexpected error occurred: " ++ msg)] 1).
Proof.
  split; [reflexivity|]. split; [cbn; lia|]. split; [reflexivity|].
  split; [vm_compute; intros [_ H]; apply H; reflexivity|].
  apply (overflow_at_calendar_bounds (mkdate 9999 12 31) 1 365
           (Random.rng_next 2) 1);
    [reflexivity | cbn; lia | reflexivity
    | vm_compute; intros [_ H]; apply H; reflexivity].
Defined.

Example overflow_run_example :
  main (fun _ _ => "") "2026-01-01 00:00:00,000"
    (mkargs "9999-12-31" 1 365 default_format) (Random.rng_next 2)
  = mkoutcome []
      ["2026-01-01 00:00:00,000 - ERROR - An unexpected error occurred: date value out of range"]
      1.
Proof. reflexivity. Qed.

(** C10: the sign of the range does not matter: [-r] passes the check
    exactly when [r] does, both draw the same offset in every state of the
    generator, an accepted call gives the same result for both, and the
    dates the injection can return are the same. *)
Theorem range_sign_symmetry d r m :
  (forall g, range_accepted d (- r) m g = range_accepted d r m g)
  /\ (forall g, draw (- r) g = draw r g)
  /\ (forall g, Z.abs r > m
                \/ inject_date_variance d (- r) m g
                   = inject_date_variance d r m g)
  /\ (forall d', (exists g, fst (inject_date_variance d (- r) m g) = Ok d')
                 <-> (exists g, fst (inject_date_variance d r m g) = Ok d')).
Proof.
  assert (D : forall g, draw (- r) g = draw r g)
    by (intros g; unfold draw; rewrite Z.abs_opp; reflexivity).
  assert (F : forall g d',
             fst (inject_date_variance d (- r) m g) = Ok d'
             <-> fst (inject_date_variance d r m g) = Ok d').
  { intros g d'. rewrite !inject_date_variance_fst, D, Z.abs_opp.
    destruct (Z.abs r >? m); [|reflexivity]. split; discriminate. }
  split; [|split; [exact D|split]].
  - intros g. unfold range_accepted.
    rewrite !inject_date_variance_fst, D, Z.abs_opp.
    destruct (Z.abs r >? m); reflexivity.
  - intros g. destruct (Z.gtb_spec (Z.abs r) m) as [G|G]; [left; lia|right].
    unfold inject_date_variance. rewrite Z.abs_opp.
    destruct (Z.gtb_spec (Z.abs r) m); [lia|reflexivity].
  - intros d'. split; intros [g E]; exists g; apply F, E.
Qed.

End Claims.


(** ** The strings the parser accepts *)

Module ShapeFacts.

Import Strptime Tables Spec Shape CalendarFacts ParseFacts.

Lemma append_assoc (a b c : string) : (a ++ b) ++ c = a ++ (b ++ c).
Proof. induction a as [|x a IH]; cbn; [|rewrite IH]; reflexivity. Qed.

Lemma length_append (a b : string) :
  String.length (a ++ b) = (String.length a + String.length b)%nat.
Proof. induction a as [|x a IH]; cbn; [|rewrite IH]; reflexivity. Qed.

Lemma In_ALL_ASCII c : In c ALL_ASCII.
Proof.
  unfold ALL_ASCII. apply in_map_iff. exists (nat_of_ascii c).
  split; [apply ascii_nat_embedding|].
  apply in_seq. pose proof (nat_ascii_bounded c). lia.
Qed.

Lemma class_texts_of p : texts_of (rx_class p) (class_texts p).
Proof.
  intros s t rest H. unfold rx_class in H.
  destruct s as [|c s']; [contradiction|].
  destruct (p c) eqn:E; [|contradiction].
  destruct H as [[= <- <-]|[]]. split; [reflexivity|].
  unfold class_texts. apply in_map_iff. exists c. split; [reflexivity|].
  apply filter_In. split; [apply In_ALL_ASCII | exact E].
Qed.

Lemma seq_texts_of a b la lb :
  texts_of a la -> texts_of b lb -> texts_of (rx_seq a b) (seq_texts la lb).
Proof.
  intros Ha Hb s t rest H. unfold rx_seq in H.
  apply in_flat_map in H. destruct H as ([t1 s1] & H1 & H2).
  apply in_map_iff in H2. destruct H2 as ([t2 s2] & [= <- <-] & H2).
  destruct (Ha _ _ _ H1) as [-> I1]. destruct (Hb _ _ _ H2) as [-> I2].
  split; [symmetry; apply append_assoc|].
  unfold seq_texts. apply in_flat_map. exists t1. split; [exact I1|].
  apply in_map, I2.
Qed.

Lemma alt_texts_of a b la lb :
  texts_of a la -> texts_of b lb -> texts_of (rx_alt a b) (la ++ lb)%list.
Proof.
  intros Ha Hb s t rest H. unfold rx_alt in H. apply in_app_or in H.
  destruct H as [H|H]; [destruct (Ha _ _ _ H) | destruct (Hb _ _ _ H)];
    (split; [assumption|]); apply in_or_app; auto.
Qed.

Lemma subset_texts_incl l1 l2 t :
  subset_texts l1 l2 = true -> In t l1 -> In t l2.
Proof.
  unfold subset_texts. rewrite forallb_forall. intros H I.
  specialize (H t I). apply existsb_exists in H.
  destruct H as (u & Iu & E). apply String.eqb_eq in E. subst u. exact Iu.
Qed.

(** What [%m] matches is one of the twenty-one spellings of a month. *)
Lemma re_m_texts_of : texts_of re_m MONTH_TEXTS.
Proof.
  assert (T : texts_of re_m re_m_texts).
  { unfold re_m, re_m_texts, chr, range.
    apply alt_texts_of; [apply alt_texts_of|];
      try apply seq_texts_of; apply class_texts_of. }
  intros s t rest H. destruct (T _ _ _ H) as [E I]. split; [exact E|].
  apply (subset_texts_incl re_m_texts); [vm_compute; reflexivity | exact I].
Qed.

(** What [%d] matches is one of the forty-nine spellings of a day. *)
Lemma re_d_texts_of : texts_of re_d DAY_TEXTS.
Proof.
  assert (T : texts_of re_d re_d_texts).
  { unfold re_d, re_d_texts, chr, range, digit.
    apply alt_texts_of;
      [apply alt_texts_of; [apply alt_texts_of; [apply alt_texts_of|]|]|];
      try apply seq_texts_of; apply class_texts_of. }
  intros s t rest H. destruct (T _ _ _ H) as [E I]. split; [exact E|].
  apply (subset_texts_incl re_d_texts); [vm_compute; reflexivity | exact I].
Qed.

Lemma chr_texts_of c s t rest :
  In (t, rest) (chr c s) -> t = String c "" /\ s = String c rest.
Proof.
  unfold chr, rx_class. destruct s as [|x s']; [contradiction|].
  destruct (Ascii.eqb_spec c x) as [->|N]; [|contradiction].
  intros [[= <- <-]|[]]. split; reflexivity.
Qed.

Lemma class_inv p s t rest :
  In (t, rest) (rx_class p s) ->
  exists c, p c = true /\ t = String c "" /\ s = String c rest.
Proof.
  unfold rx_class. destruct s as [|c s']; [contradiction|].
  destruct (p c) eqn:E; [|contradiction].
  intros [[= <- <-]|[]]. exists c. auto.
Qed.

Lemma seq_inv a b s t rest :
  In (t, rest) (rx_seq a b s) ->
  exists t1 s1 t2, In (t1, s1) (a s) /\ In (t2, rest) (b s1) /\ t = t1 ++ t2.
Proof.
  unfold rx_seq. intros H.
  apply in_flat_map in H. destruct H as ([t1 s1] & H1 & H2).
  apply in_map_iff in H2. destruct H2 as ([t2 s2] & [= <- <-] & H2).
  exists t1, s1, t2. auto.
Qed.

(** What [%Y] matches is four digits. *)
Lemma re_Y_texts_of s t rest :
  In (t, rest) (re_Y s) -> s = t ++ rest /\ four_digits t = true.
Proof.
  unfold re_Y. intros H.
  apply seq_inv in H. destruct H as (t3 & s3 & t4 & H & H4 & ->).
  apply seq_inv in H. destruct H as (t2 & s2 & t3' & H & H3 & ->).
  apply seq_inv in H. destruct H as (t1 & s1 & t2' & H1 & H2 & ->).
  apply class_inv in H1, H2, H3, H4.
  destruct H1 as (a & Ha & -> & ->), H2 as (b & Hb & -> & ->),
    H3 as (c & Hc & -> & ->), H4 as (e & He & -> & ->).
  split; [reflexivity|]. cbn. unfold is_digit.
  rewrite Ha, Hb, Hc, He. reflexivity.
Qed.

Lemma re_tail_inv s m d rest :
  In (m, d, rest) (re_tail s) ->
  s = "-" ++ m ++ "-" ++ d ++ rest
  /\ In m MONTH_TEXTS /\ In d DAY_TEXTS.
Proof.
  unfold re_tail. intros H.
  apply in_flat_map in H. destruct H as ([h1 s1] & H1 & H).
  apply in_flat_map in H. destruct H as ([m' s2] & Hm & H).
  apply in_flat_map in H. destruct H as ([h2 s3] & H2 & H).
  apply in_map_iff in H. destruct H as ([d' s4] & [= <- <- <-] & Hd).
  apply chr_texts_of in H1, H2. destruct H1 as [_ ->], H2 as [_ ->].
  destruct (re_m_texts_of _ _ _ Hm) as [-> Im].
  destruct (re_d_texts_of _ _ _ Hd) as [-> Id].
  split; [reflexivity | split; assumption].
Qed.

(** Every way the pattern of ["%Y-%m-%d"] matches splits the input into
    a year of four digits, a month and a day in one of their spellings,
    the two hyphens, and what is left over. *)
Lemma format_regex_inv s f :
  In f (format_regex s) ->
  s = group_Y f ++ "-" ++ group_m f ++ "-" ++ group_d f ++ unconverted f
  /\ four_digits (group_Y f) = true
  /\ In (group_m f) MONTH_TEXTS /\ In (group_d f) DAY_TEXTS.
Proof.
  unfold format_regex. intros H.
  apply in_flat_map in H. destruct H as ([y s1] & Hy & H).
  apply in_map_iff in H. destruct H as ([[m d] s4] & <- & H).
  cbn [group_Y group_m group_d unconverted].
  destruct (re_Y_texts_of _ _ _ Hy) as [-> Dy].
  destruct (re_tail_inv _ _ _ _ H) as (-> & Im & Id).
  auto.
Qed.

Lemma tail_texts_table m d :
  In m MONTH_TEXTS -> In d DAY_TEXTS -> tail_texts_ok m d = true.
Proof.
  intros Im Id.
  assert (A : forallb (fun x => forallb (tail_texts_ok x) DAY_TEXTS)
                MONTH_TEXTS = true) by (vm_compute; reflexivity).
  rewrite forallb_forall in A. specialize (A m Im).
  rewrite forallb_forall in A. exact (A d Id).
Qed.

(** The fields a month and a day spell are a month of 1..12 and a day of
    1..31. *)
Lemma month_text_range m : In m MONTH_TEXTS -> 1 <= int m <= 12.
Proof.
  intros I.
  assert (A : forallb (fun x => (1 <=? int x) && (int x <=? 12)) MONTH_TEXTS
              = true) by (vm_compute; reflexivity).
  rewrite forallb_forall in A. specialize (A m I).
  rewrite andb_true_iff, !Z.leb_le in A. exact A.
Qed.

Lemma day_text_range d : In d DAY_TEXTS -> 1 <= int d <= 31.
Proof.
  intros I.
  assert (A : forallb (fun x => (1 <=? int x) && (int x <=? 31)) DAY_TEXTS
              = true) by (vm_compute; reflexivity).
  rewrite forallb_forall in A. specialize (A d I).
  rewrite andb_true_iff, !Z.leb_le in A. exact A.
Qed.

(** The strings [validate_date] accepts, and the date each one gives. *)
Lemma validate_date_accepts s d :
  validate_date s = Ok d <->
  exists y m a,
    s = y ++ "-" ++ m ++ "-" ++ a
    /\ four_digits y = true /\ In m MONTH_TEXTS /\ In a DAY_TEXTS
    /\ check_date_fields (int y) (int m) (int a) = true
    /\ d = mkdate (int y) (int m) (int a).
Proof.
  split.
  - unfold validate_date, strptime_date, re_match.
    destruct (format_regex s) as [|f l] eqn:E; cbn [hd_error]; [discriminate|].
    assert (I : In f (format_regex s)) by (rewrite E; left; reflexivity).
    destruct (format_regex_inv s f I) as (Es & Dy & Im & Id).
    destruct (unconverted f) eqn:U; [|discriminate].
    destruct (date_new_cases (int (group_Y f)) (int (group_m f))
                (int (group_d f))) as [[C ->]|[C [msg ->]]]; [|discriminate].
    intros [= <-]. exists (group_Y f), (group_m f), (group_d f).
    rewrite append_empty_r in Es. auto 10.
  - intros (y & m & a & -> & Dy & Im & Ia & C & ->).
    destruct y as [|c1 [|c2 [|c3 [|c4 [|]]]]]; try discriminate.
    cbn in Dy. rewrite !andb_true_iff in Dy.
    destruct Dy as (((D1 & D2) & D3) & D4).
    unfold validate_date, strptime_date, re_match.
    cbn [append]. rewrite format_regex_digits by assumption.
    pose proof (tail_texts_table m a Im Ia) as T. unfold tail_texts_ok in T.
    cbn [append] in T.
    destruct (re_tail _) as [|[[m' a'] r'] l]; [discriminate|].
    unfold fields_eqb in T. rewrite !andb_true_iff, !String.eqb_eq in T.
    destruct T as ((-> & ->) & ->).
    cbn [map hd_error unconverted group_Y group_m group_d].
    destruct (date_new_cases (int (String c1 (String c2 (String c3 (String c4 "")))))
                (int m) (int a)) as [[_ ->]|[C' _]]; [reflexivity|congruence].
Qed.

(** Digits print back as they were read. *)
Lemma year_print_table a b c e :
  is_digit a = true -> is_digit b = true ->
  is_digit c = true -> is_digit e = true ->
  year_print_ok a b c e = true.
Proof.
  intros H1 H2 H3 H4.
  assert (A : forallb (fun a => forallb (fun b => forallb (fun c =>
                forallb (year_print_ok a b c) DIGITS) DIGITS) DIGITS) DIGITS
              = true) by (vm_compute; reflexivity).
  rewrite forallb_forall in A. specialize (A _ (is_digit_In _ H1)).
  rewrite forallb_forall in A. specialize (A _ (is_digit_In _ H2)).
  rewrite forallb_forall in A. specialize (A _ (is_digit_In _ H3)).
  rewrite forallb_forall in A. exact (A _ (is_digit_In _ H4)).
Qed.

Lemma two_print_table a b :
  is_digit a = true -> is_digit b = true -> two_print_ok a b = true.
Proof.
  intros H1 H2.
  assert (A : forallb (fun a => forallb (two_print_ok a) DIGITS) DIGITS = true)
    by (vm_compute; reflexivity).
  rewrite forallb_forall in A. specialize (A _ (is_digit_In _ H1)).
  rewrite forallb_forall in A. exact (A _ (is_digit_In _ H2)).
Qed.

End ShapeFacts.

(** ** Further properties of the program *)

Module Extras.

Import Strptime Tables Spec Shape CalendarFacts ParseFacts InjectFacts
  ShapeFacts Claims.

(** X1: [validate_date] returns a date of the calendar or raises the
    program's own [ValueError], the one with the "Invalid date format"
    message; no other error leaves it. *)
Theorem validate_date_date_or_invalid_format s :
  (exists d, validate_date s = Ok d /\ valid_date d)
  \/ validate_date s = Raise InvalidFormat.
Proof. exact (validate_date_cases s). Qed.

(** X2: among the strings of ASCII characters, [validate_date] accepts
    exactly those made of a year of four digits, a hyphen, a month in one
    of its spellings (two digits, or one digit without the zero), a hyphen
    and a day in one of its spellings (two digits, one digit, or one digit
    after a blank), whose fields are a date of the calendar; the date
    returned is the one the fields spell. *)
Theorem validate_date_accepted_strings s d :
  ascii_only s = true ->
  (validate_date s = Ok d <->
   exists y m a,
     s = y ++ "-" ++ m ++ "-" ++ a
     /\ four_digits y = true /\ In m MONTH_TEXTS /\ In a DAY_TEXTS
     /\ check_date_fields (int y) (int m) (int a) = true
     /\ d = mkdate (int y) (int m) (int a)).
Proof. intros _. exact (validate_date_accepts s d). Qed.

Lemma validate_date_accepted_strings_witness :
  ascii_only "2023-1- 5" = true
  /\ validate_date "2023-1- 5" = Ok (mkdate 2023 1 5).
Proof.
  split; [reflexivity|].
  apply (proj2 (validate_date_accepted_strings "2023-1- 5" (mkdate 2023 1 5)
                  eq_refl)).
  exists "2023", "1", " 5". repeat split; cbn; tauto.
Defined.

(** X3: on a string of the exact shape YYYY-MM-DD, [validate_date] returns
    the date the three fields spell when they pass the constructor's check
    (year 1..9999, month 1..12, day within the month), and raises the
    "Invalid date format" error when they do not (month 13, February 30,
    year 0000). *)
Theorem validate_date_on_canonical_shape s :
  matches_YYYY_MM_DD s = true ->
  validate_date s =
  let '(y, m, d) := fields_YYYY_MM_DD s in
  if check_date_fields y m d then Ok (mkdate y m d) else Raise InvalidFormat.
Proof. exact (validate_date_strict s). Qed.

Lemma validate_date_on_canonical_shape_witness :
  matches_YYYY_MM_DD "2023-02-30" = true
  /\ validate_date "2023-02-30" = Raise InvalidFormat.
Proof.
  split; [reflexivity|].
  exact (validate_date_on_canonical_shape "2023-02-30" eq_refl).
Defined.

(** X4: a string of ASCII characters that [validate_date] accepts has
    between 8 and 10 of them; the empty string and anything longer than a
    date are refused. *)
Theorem validate_date_length s d :
  ascii_only s = true ->
  validate_date s = Ok d -> (8 <= String.length s <= 10)%nat.
Proof.
  intros _ H. apply validate_date_accepts in H.
  destruct H as (y & m & a & -> & Dy & Im & Ia & _).
  assert (Ly : String.length y = 4%nat).
  { destruct y as [|c1 [|c2 [|c3 [|c4 [|]]]]]; try discriminate. reflexivity. }
  assert (Lm : (1 <= String.length m <= 2)%nat).
  { assert (A : forallb (fun x => (1 <=? String.length x)%nat
                                  && (String.length x <=? 2)%nat) MONTH_TEXTS
                = true) by (vm_compute; reflexivity).
    rewrite forallb_forall in A. specialize (A m Im).
    rewrite andb_true_iff, !Nat.leb_le in A. exact A. }
  assert (La : (1 <= String.length a <= 2)%nat).
  { assert (A : forallb (fun x => (1 <=? String.length x)%nat
                                  && (String.length x <=? 2)%nat) DAY_TEXTS
                = true) by (vm_compute; reflexivity).
    rewrite forallb_forall in A. specialize (A a Ia).
    rewrite andb_true_iff, !Nat.leb_le in A. exact A. }
  rewrite !length_append. cbn [String.length]. lia.
Qed.

Lemma validate_date_length_witness :
  ascii_only "2023-1-5" = true
  /\ validate_date "2023-1-5" = Ok (mkdate 2023 1 5)
  /\ (8 <= String.length "2023-1-5" <= 10)%nat.
Proof.
  split; [reflexivity|]. split; [reflexivity|].
  exact (validate_date_length "2023-1-5" (mkdate 2023 1 5) eq_refl eq_refl).
Defined.

(** X5: a string of the exact shape YYYY-MM-DD that parses to a date of
    the year 1000 or later is printed back unchanged by the default
    format. *)
Theorem canonical_string_prints_back pd s d :
  matches_YYYY_MM_DD s = true -> validate_date s = Ok d -> 1000 <= year d ->
  Strftime.strftime pd d default_format = s.
Proof.
  intros S P Y. rewrite (validate_date_strict s S) in P.
  unfold matches_YYYY_MM_DD in S.
  destruct s as [|y1 [|y2 [|y3 [|y4 [|h1 [|m1 [|m2 [|h2 [|d1 [|d2 [|x s]]]]]]]]]]];
    cbn [list_ascii_of_string] in S; try discriminate.
  rewrite !andb_true_iff, !Ascii.eqb_eq in S.
  destruct S as (((((((((Hy1 & Hy2) & Hy3) & Hy4) & ->) & Hm1) & Hm2) & ->)
                  & Hd1) & Hd2).
  unfold fields_YYYY_MM_DD in P. cbn [substring] in P.
  destruct (check_date_fields _ _ _); [|discriminate].
  injection P as <-. rewrite strftime_default. cbn [year month day] in *.
  pose proof (year_print_table y1 y2 y3 y4 Hy1 Hy2 Hy3 Hy4) as TY.
  pose proof (two_print_table m1 m2 Hm1 Hm2) as TM.
  pose proof (two_print_table d1 d2 Hd1 Hd2) as TD.
  unfold year_print_ok in TY. unfold two_print_ok, two in TM, TD.
  cbv zeta in TY. apply orb_true_iff in TY.
  destruct TY as [TY|TY]; [apply Z.ltb_lt in TY; lia|].
  apply String.eqb_eq in TY, TM, TD.
  rewrite TY, TM, TD. reflexivity.
Qed.

Lemma canonical_string_prints_back_witness :
  matches_YYYY_MM_DD "1987-02-28" = true
  /\ validate_date "1987-02-28" = Ok (mkdate 1987 2 28)
  /\ 1000 <= year (mkdate 1987 2 28)
  /\ Strftime.strftime (fun _ _ => "") (mkdate 1987 2 28) default_format
     = "1987-02-28".
Proof.
  split; [reflexivity|]. split; [reflexivity|]. split; [cbn; lia|].
  apply (canonical_string_prints_back (fun _ _ => "") "1987-02-28"
           (mkdate 1987 2 28));
    [reflexivity | reflexivity | cbn; lia].
Defined.

(** X6: with a negative maximum every range is refused, the range 0
    included: the call raises the range error and draws nothing. *)
Theorem negative_maximum_refuses_all d r m g :
  m < 0 ->
  inject_date_variance d r m g = (Raise (RangeExceeded r m), g).
Proof. intros H. apply inject_date_variance_refused. lia. Qed.

Lemma negative_maximum_refuses_all_witness :
  -1 < 0
  /\ inject_date_variance (mkdate 2023 10 26) 0 (-1) (Random.rng_next 3)
     = (Raise (RangeExceeded 0 (-1)), Random.rng_next 3).
Proof.
  split; [lia|].
  apply (negative_maximum_refuses_all (mkdate 2023 10 26) 0 (-1)
           (Random.rng_next 3)).
  lia.
Defined.

(** X7: when the date is more than [|r|] days after 0001-01-01 and at
    least [|r|] days before 9999-12-31, an accepted call returns a date
    whatever is drawn: the shift cannot leave the calendar. *)
Theorem no_overflow_away_from_calendar_ends d r m g :
  valid_date d -> Z.abs r <= m ->
  Z.abs r < toordinal d -> toordinal d + Z.abs r <= MAXORDINAL ->
  exists d', fst (inject_date_variance d r m g) = Ok d' /\ valid_date d'.
Proof.
  intros V Hr Lo Hi.
  destruct (inject_date_variance_results d r m g V Hr)
    as (v & _ & B & [(_ & d' & E & V' & _)|(D & _)]); [eauto|].
  exfalso. apply D. lia.
Qed.

Lemma no_overflow_away_from_calendar_ends_witness :
  valid_date (mkdate 1 1 31) /\ Z.abs 30 <= 365
  /\ Z.abs 30 < toordinal (mkdate 1 1 31)
  /\ toordinal (mkdate 1 1 31) + Z.abs 30 <= MAXORDINAL
  /\ exists d',
       fst (inject_date_variance (mkdate 1 1 31) 30 365 (Random.rng_next 0))
       = Ok d' /\ valid_date d'.
Proof.
  split; [reflexivity|]. split; [cbn; lia|].
  split; [vm_compute; reflexivity|]. split; [vm_compute; discriminate|].
  apply (no_overflow_away_from_calendar_ends (mkdate 1 1 31) 30 365
           (Random.rng_next 0));
    [reflexivity | cbn; lia | vm_compute; reflexivity
    | vm_compute; discriminate].
Defined.

(** A date the injection returns is the valid date as many days from the
    input as were drawn. *)
Lemma inject_date_variance_returned d r m g d' :
  valid_date d -> fst (inject_date_variance d r m g) = Ok d' ->
  exists v, draw r g = Ok v /\ - Z.abs r <= v <= Z.abs r /\ Z.abs r <= m
            /\ valid_date d' /\ toordinal d' = toordinal d + v.
Proof.
  intros V E.
  destruct (Z.gtb_spec (Z.abs r) m) as [G|G].
  - rewrite (inject_date_variance_refused d r m g) in E by lia. discriminate.
  - destruct (inject_date_variance_results d r m g V G)
      as (v & Hv & B & [(_ & d1 & E1 & V1 & O)|(_ & msg & E1)]);
      rewrite E1 in E; [injection E as <- | discriminate].
    exists v. auto.
Qed.

(** X8: two dates more than [2|r|] days apart keep their order, whatever
    the two calls draw. *)
Theorem order_kept_when_far_apart d1 d2 r m g1 g2 d1' d2' :
  valid_date d1 -> valid_date d2 ->
  toordinal d1 + 2 * Z.abs r < toordinal d2 ->
  fst (inject_date_variance d1 r m g1) = Ok d1' ->
  fst (inject_date_variance d2 r m g2) = Ok d2' ->
  toordinal d1' < toordinal d2'.
Proof.
  intros V1 V2 Far E1 E2.
  destruct (inject_date_variance_returned _ _ _ _ _ V1 E1)
    as (v1 & _ & B1 & _ & _ & O1).
  destruct (inject_date_variance_returned _ _ _ _ _ V2 E2)
    as (v2 & _ & B2 & _ & _ & O2).
  lia.
Qed.

Lemma order_kept_when_far_apart_witness :
  valid_date (mkdate 2023 10 1) /\ valid_date (mkdate 2023 10 26)
  /\ toordinal (mkdate 2023 10 1) + 2 * Z.abs 10 < toordinal (mkdate 2023 10 26)
  /\ fst (inject_date_variance (mkdate 2023 10 1) 10 365 (Random.rng_next 20))
     = Ok (mkdate 2023 10 11)
  /\ fst (inject_date_variance (mkdate 2023 10 26) 10 365 (Random.rng_next 0))
     = Ok (mkdate 2023 10 16)
  /\ toordinal (mkdate 2023 10 11) < toordinal (mkdate 2023 10 16).
Proof.
  split; [reflexivity|]. split; [reflexivity|].
  split; [vm_compute; reflexivity|]. split; [reflexivity|].
  split; [reflexivity|].
  apply (order_kept_when_far_apart (mkdate 2023 10 1) (mkdate 2023 10 26)
           10 365 (Random.rng_next 20) (Random.rng_next 0));
    [reflexivity | reflexivity | vm_compute; reflexivity
    | reflexivity | reflexivity].
Defined.

(** X9: two dates less than [2|r|] days apart can come out in the opposite
    order: away from the ends of the calendar there are draws that put the
    later date before the earlier one. *)
Theorem order_can_flip_when_close d1 d2 r m :
  valid_date d1 -> valid_date d2 -> Z.abs r <= m ->
  toordinal d1 < toordinal d2 < toordinal d1 + 2 * Z.abs r ->
  toordinal d1 + Z.abs r <= MAXORDINAL -> 1 <= toordinal d2 - Z.abs r ->
  exists g1 g2 d1' d2',
    fst (inject_date_variance d1 r m g1) = Ok d1'
    /\ fst (inject_date_variance d2 r m g2) = Ok d2'
    /\ toordinal d2' < toordinal d1'.
Proof.
  intros V1 V2 Hr Close Hi Lo.
  pose proof (toordinal_bounds d1 V1) as B1.
  pose proof (toordinal_bounds d2 V2) as B2.
  pose proof (draw_onto r (Z.abs r) ltac:(lia)) as D1.
  pose proof (draw_onto r (- Z.abs r) ltac:(lia)) as D2.
  destruct (inject_date_variance_draw d1 r m _ _ Hr D1) as [I1 _].
  destruct (inject_date_variance_draw d2 r m _ _ Hr D2) as [I2 _].
  destruct (date_add_in_range d1 (Z.abs r) ltac:(lia)) as (d1' & E1 & _ & O1).
  destruct (date_add_in_range d2 (- Z.abs r) ltac:(lia)) as (d2' & E2 & _ & O2).
  exists (Random.rng_next (Z.abs r + Z.abs r)),
    (Random.rng_next (- Z.abs r + Z.abs r)), d1', d2'.
  rewrite (I1 V1 ltac:(lia)), (I2 V2 ltac:(lia)). repeat split; try assumption.
  lia.
Qed.

Lemma order_can_flip_when_close_witness :
  valid_date (mkdate 2023 10 26) /\ valid_date (mkdate 2023 10 27)
  /\ Z.abs 10 <= 365
  /\ toordinal (mkdate 2023 10 26) < toordinal (mkdate 2023 10 27)
     < toordinal (mkdate 2023 10 26) + 2 * Z.abs 10
  /\ exists g1 g2 d1' d2',
       fst (inject_date_variance (mkdate 2023 10 26) 10 365 g1) = Ok d1'
       /\ fst (inject_date_variance (mkdate 2023 10 27) 10 365 g2) = Ok d2'
       /\ toordinal d2' < toordinal d1'.
Proof.
  split; [reflexivity|]. split; [reflexivity|]. split; [cbn; lia|].
  split; [vm_compute; split; reflexivity|].
  apply (order_can_flip_when_close (mkdate 2023 10 26) (mkdate 2023 10 27)
           10 365);
    [reflexivity | reflexivity | cbn; lia | vm_compute; split; reflexivity
    | vm_compute; discriminate | vm_compute; discriminate].
Defined.

(** X10: two calls that draw the same offset move their dates by the same
    number of days: the distance between the dates is kept. *)
Theorem same_draw_keeps_distance d1 d2 r m g1 g2 d1' d2' :
  valid_date d1 -> valid_date d2 -> draw r g1 = draw r g2 ->
  fst (inject_date_variance d1 r m g1) = Ok d1' ->
  fst (inject_date_variance d2 r m g2) = Ok d2' ->
  toordinal d2' - toordinal d1' = toordinal d2 - toordinal d1.
Proof.
  intros V1 V2 D E1 E2.
  destruct (inject_date_variance_returned _ _ _ _ _ V1 E1)
    as (v1 & D1 & _ & _ & _ & O1).
  destruct (inject_date_variance_returned _ _ _ _ _ V2 E2)
    as (v2 & D2 & _ & _ & _ & O2).
  rewrite D, D2 in D1. injection D1 as ->. lia.
Qed.

Lemma same_draw_keeps_distance_witness :
  valid_date (mkdate 2024 2 28) /\ valid_date (mkdate 2024 3 1)
  /\ draw 10 (Random.rng_next 5) = draw 10 (Random.rng_next 26)
  /\ fst (inject_date_variance (mkdate 2024 2 28) 10 365 (Random.rng_next 5))
     = Ok (mkdate 2024 2 23)
  /\ fst (inject_date_variance (mkdate 2024 3 1) 10 365 (Random.rng_next 26))
     = Ok (mkdate 2024 2 25)
  /\ toordinal (mkdate 2024 2 25) - toordinal (mkdate 2024 2 23)
     = toordinal (mkdate 2024 3 1) - toordinal (mkdate 2024 2 28).
Proof.
  split; [reflexivity|]. split; [reflexivity|]. split; [reflexivity|].
  split; [reflexivity|]. split; [reflexivity|].
  apply (same_draw_keeps_distance (mkdate 2024 2 28) (mkdate 2024 3 1)
           10 365 (Random.rng_next 5) (Random.rng_next 26));
    reflexivity.
Defined.

(** X11: the injection is undone by the opposite shift: adding minus the
    offset drawn to the date returned gives the input date back. *)
Theorem injection_undone_by_opposite_shift d r m g d' :
  valid_date d -> fst (inject_date_variance d r m g) = Ok d' ->
  exists v, draw r g = Ok v /\ date_add d' (- v) = Ok d.
Proof.
  intros V E.
  destruct (inject_date_variance_returned _ _ _ _ _ V E)
    as (v & D & _ & _ & V' & O).
  exists v. split; [exact D|].
  pose proof (toordinal_bounds d V) as B.
  destruct (date_add_in_range d' (- v) ltac:(lia)) as (d0 & E0 & V0 & O0).
  rewrite E0. f_equal. apply toordinal_inj; [assumption..|lia].
Qed.

Lemma injection_undone_by_opposite_shift_witness :
  valid_date (mkdate 2024 2 25)
  /\ fst (inject_date_variance (mkdate 2024 2 25) 10 365 (Random.rng_next 20))
     = Ok (mkdate 2024 3 6)
  /\ exists v, draw 10 (Random.rng_next 20) = Ok v
               /\ date_add (mkdate 2024 3 6) (- v) = Ok (mkdate 2024 2 25).
Proof.
  split; [reflexivity|]. split; [reflexivity|].
  apply (injection_undone_by_opposite_shift (mkdate 2024 2 25) 10 365
           (Random.rng_next 20) (mkdate 2024 3 6));
    reflexivity.
Defined.

(** X12: when the date string does not parse, the run prints nothing, logs
    the "Invalid date format" error and exits with status 1, whatever the
    range, the maximum, the format and the state of the generator. *)
Theorem invalid_date_run pd asctime a g :
  validate_date (arg_date a) = Raise InvalidFormat ->
  main pd asctime a g
  = mkoutcome []
      [logging_error asctime
         "Error: Invalid date format. Please use YYYY-MM-DD (e.g., 2023-10-26)."]
      1.
Proof.
  intros P. unfold main. rewrite main_body_fst, P. reflexivity.
Qed.

Lemma invalid_date_run_witness :
  validate_date "2023-13-01" = Raise InvalidFormat
  /\ main (fun _ _ => "") "2026-01-01 00:00:00,000"
       (mkargs "2023-13-01" 500 30 "%d/%m/%Y") (Random.rng_next 4)
     = mkoutcome []
         ["2026-01-01 00:00:00,000 - ERROR - Error: Invalid date format. Please use YYYY-MM-DD (e.g., 2023-10-26)."]
         1.
Proof.
  split; [reflexivity|].
  apply (invalid_date_run (fun _ _ => "") "2026-01-01 00:00:00,000"
           (mkargs "2023-13-01" 500 30 "%d/%m/%Y") (Random.rng_next 4)).
  reflexivity.
Defined.

(** A date on or after 1000-01-01 has a year of 1000 or more. *)
Lemma year_from_toordinal d :
  valid_date d -> toordinal (mkdate 1000 1 1) <= toordinal d ->
  1000 <= year d.
Proof.
  intros V H. apply valid_date_spec in V. destruct V as (Hy & Hm & Hd).
  destruct (Z.le_gt_cases 1000 (year d)) as [|G]; [assumption|].
  pose proof (ymd2ord_bounds _ _ _ Hm Hd) as B.
  pose proof (days_before_year_mono (year d + 1) 1000 ltac:(lia)) as Q.
  change (toordinal (mkdate 1000 1 1)) with (days_before_year 1000 + 1) in H.
  unfold toordinal in H. lia.
Qed.

(** The two ways a run ends. *)
Lemma main_cases pd asctime a g :
  (exists d v d',
     validate_date (arg_date a) = Ok d
     /\ Z.abs (arg_range a) <= arg_max_range a
     /\ draw (arg_range a) g = Ok v
     /\ 1 <= toordinal d + v <= MAXORDINAL
     /\ valid_date d' /\ toordinal d' = toordinal d + v
     /\ main pd asctime a g
        = mkoutcome [Strftime.strftime pd d' (arg_format a)] [] 0)
  \/ (exists msg,
        main pd asctime a g = mkoutcome [] [logging_error asctime msg] 1
        /\ ~ (exists d v,
                validate_date (arg_date a) = Ok d
                /\ Z.abs (arg_range a) <= arg_max_range a
                /\ draw (arg_range a) g = Ok v
                /\ 1 <= toordinal d + v <= MAXORDINAL)).
Proof.
  unfold main. rewrite main_body_fst.
  destruct (validate_date_cases (arg_date a)) as [(d & P & V)|P]; rewrite P.
  - destruct (Z.gtb_spec (Z.abs (arg_range a)) (arg_max_range a)) as [G|G].
    + right.
      rewrite (inject_date_variance_refused d (arg_range a) (arg_max_range a)
                 g ltac:(lia)).
      cbn.
      eexists; split; [reflexivity|]. intros (d0 & v & _ & L & _). lia.
    + destruct (inject_date_variance_results d _ _ g V G)
        as (v & Hv & B & [(R & d' & E & V' & O)|(R & msg & E)]); rewrite E.
      * left. exists d, v, d'. repeat split; auto; lia.
      * right. cbn. eexists; split; [reflexivity|].
        intros (d0 & v0 & [= <-] & _ & Hv0 & R0).
        rewrite Hv in Hv0. injection Hv0 as <-. contradiction.
  - right. cbn. eexists; split; [reflexivity|].
    intros (d0 & v & P0 & _). discriminate.
Qed.

(** X13: once [parse_args] has returned the arguments, and with the
    default format, the [try] statement of [main] ends in one of two ways:
    the date parses, the range is accepted and the day drawn is in the
    calendar, and that day is printed on one line, nothing is logged and
    the status is 0; or one of the three fails, nothing is printed, one
    line is logged and the status is 1. *)
Theorem run_outcome pd asctime a g :
  arg_format a = default_format -> two_endings pd asctime a g.
Proof. intros _. exact (main_cases pd asctime a g). Qed.

Lemma run_outcome_witness :
  arg_format (mkargs "2023-10-26" 10 365 default_format) = default_format
  /\ two_endings (fun _ _ => "") ""
       (mkargs "2023-10-26" 10 365 default_format) (Random.rng_next 20).
Proof.
  split; [reflexivity|].
  apply (run_outcome (fun _ _ => "") ""
           (mkargs "2023-10-26" 10 365 default_format) (Random.rng_next 20)).
  reflexivity.
Defined.

(** X14: for an input date at least [|r|] days after 1000-01-01, a line
    printed under the default format is itself a date string of the shape
    YYYY-MM-DD; parsed again it gives a date within [|r|] days of the input
    date. *)
Theorem default_format_output_parses pd asctime s r m g d line :
  validate_date s = Ok d ->
  toordinal (mkdate 1000 1 1) + Z.abs r <= toordinal d ->
  stdout (main pd asctime (mkargs s r m default_format) g) = [line] ->
  exists d',
    validate_date line = Ok d' /\ matches_YYYY_MM_DD line = true
    /\ toordinal d - Z.abs r <= toordinal d' <= toordinal d + Z.abs r.
Proof.
  intros P Far L.
  destruct (main_cases pd asctime (mkargs s r m default_format) g)
    as [(d0 & v & d' & P0 & Hr & Hv & R & V' & O & E)|(msg & E & _)];
    rewrite E in L; cbn [stdout] in L; [|discriminate].
  cbn [arg_date arg_range arg_max_range arg_format] in *.
  rewrite P in P0. injection P0 as <-. injection L as <-.
  destruct (draw_ok r g) as (v' & Hv' & B). rewrite Hv in Hv'.
  injection Hv' as <-.
  assert (Y : 1000 <= year d') by (apply year_from_toordinal; [exact V'|lia]).
  destruct (validate_date_strftime pd d' V' Y) as [S1 S2].
  exists d'. split; [exact S2|]. split; [exact S1|]. lia.
Qed.

Lemma default_format_output_parses_witness :
  validate_date "2023-12-25" = Ok (mkdate 2023 12 25)
  /\ toordinal (mkdate 1000 1 1) + Z.abs 10 <= toordinal (mkdate 2023 12 25)
  /\ stdout (main (fun _ _ => "") ""
               (mkargs "2023-12-25" 10 365 default_format) (Random.rng_next 20))
     = ["2024-01-04"]
  /\ exists d',
       validate_date "2024-01-04" = Ok d'
       /\ matches_YYYY_MM_DD "2024-01-04" = true
       /\ toordinal (mkdate 2023 12 25) - Z.abs 10 <= toordinal d'
          <= toordinal (mkdate 2023 12 25) + Z.abs 10.
Proof.
  split; [reflexivity|]. split; [vm_compute; discriminate|].
  split; [reflexivity|].
  apply (default_format_output_parses (fun _ _ => "") "" "2023-12-25" 10 365
           (Random.rng_next 20) (mkdate 2023 12 25) "2024-01-04");
    [reflexivity | vm_compute; discriminate | reflexivity].
Defined.

(** X15: run with the date alone, the options at the defaults
    [setup_argparse] declares (range 30, maximum 365, format %Y-%m-%d):
    the range is never refused, and for a date more than 30 days after
    0001-01-01 and at least 30 days before 9999-12-31 the run prints a date
    within 30 days of it and exits with status 0. *)
Theorem default_run pd asctime s d g :
  validate_date s = Ok d ->
  30 < toordinal d -> toordinal d + 30 <= MAXORDINAL ->
  exists d',
    main pd asctime (default_args s) g
    = mkoutcome [Strftime.strftime pd d' default_format] [] 0
    /\ valid_date d'
    /\ toordinal d - 30 <= toordinal d' <= toordinal d + 30.
Proof.
  intros P Lo Hi.
  destruct (main_cases pd asctime (default_args s) g)
    as [(d0 & v & d' & P0 & Hr & Hv & R & V' & O & E)|(msg & _ & N)];
    cbn [default_args arg_date arg_range arg_max_range arg_format] in *.
  - rewrite P in P0. injection P0 as <-.
    exists d'. split; [exact E|]. split; [exact V'|].
    destruct (draw_ok default_range g) as (v' & Hv' & B). rewrite Hv in Hv'.
    injection Hv' as <-. unfold default_range in B. cbn in B. lia.
  - exfalso. apply N.
    destruct (draw_ok default_range g) as (v & Hv & B).
    unfold default_range in B. cbn in B.
    exists d, v. repeat split; try assumption;
      unfold default_range, default_max_range; cbn; lia.
Qed.

Lemma default_run_witness :
  validate_date "2023-10-26" = Ok (mkdate 2023 10 26)
  /\ 30 < toordinal (mkdate 2023 10 26)
  /\ toordinal (mkdate 2023 10 26) + 30 <= MAXORDINAL
  /\ exists d',
       main (fun _ _ => "") "" (default_args "2023-10-26") (Random.rng_next 0)
       = mkoutcome [Strftime.strftime (fun _ _ => "") d' default_format] [] 0
       /\ valid_date d'
       /\ toordinal (mkdate 2023 10 26) - 30 <= toordinal d'
          <= toordinal (mkdate 2023 10 26) + 30.
Proof.
  split; [reflexivity|]. split; [vm_compute; reflexivity|].
  split; [vm_compute; discriminate|].
  apply (default_run (fun _ _ => "") "" "2023-10-26" (mkdate 2023 10 26)
           (Random.rng_next 0));
    [reflexivity | vm_compute; reflexivity | vm_compute; discriminate].
Defined.

Lemma short_year_table y : 1 <= y <= 999 -> short_year_ok y = true.
Proof.
  intros H.
  assert (A : forallb short_year_ok (zrange 1 999) = true)
    by (vm_compute; reflexivity).
  rewrite forallb_forall in A. apply A, zrange_In. lia.
Qed.

(** [\d\d\d\d] finds no match where a hyphen comes within the first four
    characters. *)
Lemma re_Y_short t rest :
  (String.length t <= 3)%nat -> re_Y (t ++ String "-" rest) = [].
Proof.
  intros L.
  destruct (re_Y (t ++ String "-" rest)) as [|[y r] l] eqn:E; [reflexivity|].
  exfalso.
  assert (I : In (y, r) (re_Y (t ++ String "-" rest)))
    by (rewrite E; left; reflexivity).
  destruct (re_Y_texts_of _ _ _ I) as [Es D].
  destruct y as [|c1 [|c2 [|c3 [|c4 [|]]]]]; try discriminate.
  cbn in D. rewrite !andb_true_iff in D.
  destruct D as (((D1 & D2) & D3) & D4).
  assert (N : is_digit "-" = false) by reflexivity.
  destruct t as [|a [|b [|c [|e t']]]]; cbn in L, Es; try lia;
    injection Es; intros; subst; congruence.
Qed.

(** X16: a date of a year below 1000 does not survive the round trip: the
    default format prints its year with fewer than four digits, and
    [validate_date] refuses the result. *)
Theorem years_below_1000_do_not_parse_back pd d :
  valid_date d -> year d < 1000 ->
  validate_date (Strftime.strftime pd d default_format) = Raise InvalidFormat.
Proof.
  intros V Y. apply valid_date_spec in V. destruct V as (Hy & _).
  pose proof (short_year_table (year d) ltac:(lia)) as T.
  unfold short_year_ok in T. apply Nat.leb_le in T.
  rewrite strftime_default.
  unfold validate_date, strptime_date, re_match, format_regex.
  change (str_int (year d) ++ "-"
          ++ Strftime.zfill 2 (str_int (month d)) ++ "-"
          ++ Strftime.zfill 2 (str_int (day d)))
    with (str_int (year d)
          ++ String "-" (Strftime.zfill 2 (str_int (month d)) ++ "-"
                         ++ Strftime.zfill 2 (str_int (day d)))).
  rewrite (re_Y_short _ _ T). reflexivity.
Qed.

Lemma years_below_1000_do_not_parse_back_witness :
  valid_date (mkdate 1 1 31) /\ year (mkdate 1 1 31) < 1000
  /\ validate_date
       (Strftime.strftime (fun _ _ => "") (mkdate 1 1 31) default_format)
     = Raise InvalidFormat.
Proof.
  split; [reflexivity|]. split; [cbn; lia|].
  apply (years_below_1000_do_not_parse_back (fun _ _ => "") (mkdate 1 1 31));
    [reflexivity | cbn; lia].
Defined.

End Extras.
